(** * http2struct: binding an HTTP request into a struct

    A shallow embedding of [http2struct.go] (package [http2struct]) and the
    properties of its field binder.

    The embedding follows the current [Convert], [convertBody] and [convert]
    (the documented variant, with the [file:"binary"] tag); the earlier
    variant the file also carries is in [Earlier].  The parts of
    Go's standard library the binder calls are modelled next to it: package
    [strings] and the integer and boolean parsers of [strconv] concretely,
    everything that touches the network, the multipart decoder, the JSON
    decoder and the floating-point parsers as collaborators ([Env]). *)

From Stdlib Require Import ZArith String Ascii List Bool Lia.
From stdpp Require Import base option strings list gmap.

Local Open Scope string_scope.

(** ** Package [reflect]: kinds and types *)

Module Reflect.

(** [reflect.Kind], in the order of the Go declaration. *)
Inductive Kind :=
| Invalid | Bool | Int | Int8 | Int16 | Int32 | Int64
| Uint | Uint8 | Uint16 | Uint32 | Uint64 | Uintptr
| Float32 | Float64 | Complex64 | Complex128
| Array | Chan | Func | Interface | Map | Pointer | Slice
| String | Struct | UnsafePointer.

Definition Kind_eq_dec (a b : Kind) : {a = b} + {a <> b}.
Proof. decide equality. Defined.

End Reflect.

#[global] Instance Kind_eq_decision : EqDecision Reflect.Kind := Reflect.Kind_eq_dec.

Inductive IntKind := KInt | KInt8 | KInt16 | KInt32 | KInt64.
Inductive UintKind := KUint | KUint8 | KUint16 | KUint32 | KUint64 | KUintptr.
Inductive FloatKind := KFloat32 | KFloat64.
Inductive ComplexKind := KComplex64 | KComplex128.
Inductive OtherKind :=
  KArray | KChan | KFunc | KInterface | KMap | KStruct | KUnsafePointer.

(** A [reflect.Type] as far as the binder looks at it: the scalar types by
    kind, slices and pointers with their element type, the struct type
    [File] of this package, and any other type by its kind and its name. *)
Inductive GoType :=
| TBool
| TInt (k : IntKind)
| TUint (k : UintKind)
| TFloat (k : FloatKind)
| TComplex (k : ComplexKind)
| TString
| TSlice (elem : GoType)
| TPointer (elem : GoType)
| TFile
| TOther (k : OtherKind) (name : string).

#[global] Instance IntKind_eq_decision : EqDecision IntKind.
Proof. solve_decision. Defined.
#[global] Instance UintKind_eq_decision : EqDecision UintKind.
Proof. solve_decision. Defined.
#[global] Instance FloatKind_eq_decision : EqDecision FloatKind.
Proof. solve_decision. Defined.
#[global] Instance ComplexKind_eq_decision : EqDecision ComplexKind.
Proof. solve_decision. Defined.
#[global] Instance OtherKind_eq_decision : EqDecision OtherKind.
Proof. solve_decision. Defined.
#[global] Instance GoType_eq_decision : EqDecision GoType.
Proof. solve_decision. Defined.

(** [Type.Kind()]. *)
Definition Kind (t : GoType) : Reflect.Kind :=
  match t with
  | TBool => Reflect.Bool
  | TInt KInt => Reflect.Int
  | TInt KInt8 => Reflect.Int8
  | TInt KInt16 => Reflect.Int16
  | TInt KInt32 => Reflect.Int32
  | TInt KInt64 => Reflect.Int64
  | TUint KUint => Reflect.Uint
  | TUint KUint8 => Reflect.Uint8
  | TUint KUint16 => Reflect.Uint16
  | TUint KUint32 => Reflect.Uint32
  | TUint KUint64 => Reflect.Uint64
  | TUint KUintptr => Reflect.Uintptr
  | TFloat KFloat32 => Reflect.Float32
  | TFloat KFloat64 => Reflect.Float64
  | TComplex KComplex64 => Reflect.Complex64
  | TComplex KComplex128 => Reflect.Complex128
  | TString => Reflect.String
  | TSlice _ => Reflect.Slice
  | TPointer _ => Reflect.Pointer
  | TFile => Reflect.Struct
  | TOther KArray _ => Reflect.Array
  | TOther KChan _ => Reflect.Chan
  | TOther KFunc _ => Reflect.Func
  | TOther KInterface _ => Reflect.Interface
  | TOther KMap _ => Reflect.Map
  | TOther KStruct _ => Reflect.Struct
  | TOther KUnsafePointer _ => Reflect.UnsafePointer
  end.

(** Size of [int], [uint] and [uintptr] in bits ([strconv.IntSize]) on the
    64-bit targets. *)
Definition IntSize : Z := 64.

(** [Type.Bits()] of the sized kinds (Go panics on the others). *)
Definition Bits (t : GoType) : Z :=
  match t with
  | TInt KInt | TUint KUint | TUint KUintptr => IntSize
  | TInt KInt8 | TUint KUint8 => 8
  | TInt KInt16 | TUint KUint16 => 16
  | TInt KInt32 | TUint KUint32 | TFloat KFloat32 => 32
  | TInt KInt64 | TUint KUint64 | TFloat KFloat64 | TComplex KComplex64 => 64
  | TComplex KComplex128 => 128
  | _ => 0
  end.

(** ** Errors

    [fmt.Errorf] with a fixed format is an error carrying that format and its
    arguments ([Message]); with [%w] it wraps its cause. *)

Inductive Message :=
| MsgRequestNil                       (* "request cannot be nil" *)
| MsgDestinationNil                   (* "destination cannot be nil" *)
| MsgDestinationNotPointer            (* "destination must be a pointer" *)
| MsgDestinationNotStruct             (* "destination must be a struct" *)
| MsgConvertBody                      (* "failed to convert body: %w" *)
| MsgDecodeBody                       (* "failed to decode request body: %w" *)
| MsgParseMultipartForm               (* "failed to parse request multipart form: %w" *)
| MsgConvertForm (tag name : string)  (* "failed to convert %q form to %q field: %w" *)
| MsgTypeNotSupported (t : GoType) (name : string)
                                      (* "%q type is not supported for %q field" *)
| MsgGetFormFile (tag name : string)  (* "failed to get %q form file for %q field: %w" *)
| MsgReadFormFile (tag name : string) (* "failed to read %q form file content for %q field: %w" *)
| MsgReadRawBody (tag name : string)  (* "failed to read %q raw body for %q field: %w" *)
| MsgParseRawBodyMediaType (tag name : string)
                                      (* "failed to parse %q raw body media type for %q field: %w" *)
| MsgConvertHeader (tag name : string)(* "failed to convert %q header to %q field: %w" *)
| MsgConvertQuery (tag name : string) (* "failed to convert %q query to %q field: %w" *)
| MsgConvertPath (tag name : string)  (* "failed to convert %q path to %q field: %w" *)
| MsgSliceElementKind (k : Reflect.Kind)
                                      (* "slice element kind %q is not supported" *)
| MsgSliceElementIndex (i : nat)      (* "failed to convert slice element for index %d: %w" *)
| MsgKindNotSupported (k : Reflect.Kind)
                                      (* "kind %q is not supported" *)
| MsgParseValue (k : Reflect.Kind).   (* "failed to parse value to %q: %w" *)

Inductive Error :=
| ErrMissingFile                            (* http.ErrMissingFile *)
| ErrSyntax                                 (* strconv.ErrSyntax *)
| ErrRange                                  (* strconv.ErrRange *)
| ErrExternal (msg : string)                (* any other error of a collaborator *)
| NumError (Func Num : string) (Err : Error)(* strconv.NumError *)
| New (m : Message)                         (* fmt.Errorf without %w *)
| Wrap (m : Message) (cause : Error).       (* fmt.Errorf with %w *)

#[global] Instance Message_eq_decision : EqDecision Message.
Proof. solve_decision. Defined.
#[global] Instance Error_eq_decision : EqDecision Error.
Proof. solve_decision. Defined.

(** [errors.Is]: the error or one of the errors it wraps is the target. *)
Fixpoint errors_Is (err target : Error) : bool :=
  if decide (err = target) then true
  else match err with
       | NumError _ _ cause | Wrap _ cause => errors_Is cause target
       | _ => false
       end.

(** An unsupported-type error of the binder: one of its three messages of
    that family, not wrapping anything. *)
Definition unsupportedType (e : Error) : bool :=
  match e with
  | New (MsgTypeNotSupported _ _) | New (MsgSliceElementKind _)
  | New (MsgKindNotSupported _) => true
  | _ => false
  end.

(** ** Package [strings]

    Go strings are byte strings, as Rocq's are.  The binder calls [Cut] and
    [Split] with one-byte separators only. *)

Module GoStrings.

(** [strings.Cut(s, sep)]: the text before the first [sep], the text after
    it, and whether [sep] occurs; [(s, "", false)] when it does not. *)
Fixpoint Cut (s : string) (sep : ascii) : string * string * bool :=
  match s with
  | EmptyString => (EmptyString, EmptyString, false)
  | String c rest =>
      if Ascii.eqb c sep then (EmptyString, rest, true)
      else let '(before, after, found) := Cut rest sep in
           (String c before, after, found)
  end.

(** [strings.Split(s, sep)]: the substrings between the separators, one
    more than there are separators. *)
Fixpoint Split (s : string) (sep : ascii) : list string :=
  match s with
  | EmptyString => [EmptyString]
  | String c rest =>
      if Ascii.eqb c sep then EmptyString :: Split rest sep
      else match Split rest sep with
           | part :: parts => String c part :: parts
           | [] => [String c EmptyString]
           end
  end.

(** [strings.Count(s, sep)] for a one-byte separator. *)
Fixpoint Count (s : string) (sep : ascii) : nat :=
  match s with
  | EmptyString => 0
  | String c rest => (if Ascii.eqb c sep then 1 else 0) + Count rest sep
  end.

Definition bytes (l : list nat) : string :=
  string_of_list_ascii (map ascii_of_nat l).

(** The UTF-8 encodings of the code points [unicode.IsSpace] accepts:
    U+0009..U+000D, U+0020, U+0085, U+00A0, U+1680, U+2000..U+200A,
    U+2028, U+2029, U+202F, U+205F and U+3000. *)
Definition whiteSpace : list string :=
  map bytes
    [ [9]; [10]; [11]; [12]; [13]; [32]; [194; 133]; [194; 160];
      [225; 154; 128];
      [226; 128; 128]; [226; 128; 129]; [226; 128; 130]; [226; 128; 131];
      [226; 128; 132]; [226; 128; 133]; [226; 128; 134]; [226; 128; 135];
      [226; 128; 136]; [226; 128; 137]; [226; 128; 138];
      [226; 128; 168]; [226; 128; 169]; [226; 128; 175];
      [226; 129; 159]; [227; 128; 128] ]%nat.

Fixpoint dropBytes (n : nat) (s : string) : string :=
  match n, s with
  | O, _ => s
  | S n, String _ rest => dropBytes n rest
  | S _, EmptyString => EmptyString
  end.

(** Remove, from the left, every leading occurrence of one of [ws]. *)
Fixpoint trimLeft (ws : list string) (fuel : nat) (s : string) : string :=
  match fuel with
  | O => s
  | S fuel =>
      match find (fun w => String.prefix w s) ws with
      | Some w => trimLeft ws fuel (dropBytes (String.length w) s)
      | None => s
      end
  end.

(** [strings.TrimSpace(s)]: [s] without leading and trailing white space.
    A rune decodes to a white-space code point exactly when the bytes are
    its UTF-8 encoding, so trimming runes is trimming these encodings. *)
Definition TrimSpace (s : string) : string :=
  let l := trimLeft whiteSpace (String.length s) s in
  String.rev
    (trimLeft (map String.rev whiteSpace) (String.length l) (String.rev l)).

End GoStrings.

(** ** Package [strconv] *)

Module Strconv.

Definition syntaxError (fn str : string) : Error := NumError fn str ErrSyntax.
Definition rangeError (fn str : string) : Error := NumError fn str ErrRange.

(** [strconv.ParseBool]. *)
Definition ParseBool (str : string) : bool * option Error :=
  if existsb (String.eqb str) ["1"; "t"; "T"; "true"; "TRUE"; "True"]
  then (true, None)
  else if existsb (String.eqb str) ["0"; "f"; "F"; "false"; "FALSE"; "False"]
  then (false, None)
  else (false, Some (syntaxError "ParseBool" str)).

Definition maxUint64 : Z := 2 ^ 64 - 1.

(** The digit loop of [ParseUint] in base 10 on 64-bit words: [n] is the
    value so far, [maxVal] the largest value of the target width. *)
Fixpoint parseDigits (s0 : string) (maxVal : Z) (s : string) (n : Z)
  : Z * option Error :=
  match s with
  | EmptyString => (n, None)
  | String c rest =>
      let code := Z.of_nat (nat_of_ascii c) in
      if negb ((48 <=? code) && (code <=? 57))%Z
      then (0%Z, Some (syntaxError "ParseUint" s0))
      else
        let d := (code - 48)%Z in
        if (maxUint64 / 10 + 1 <=? n)%Z
        then (maxVal, Some (rangeError "ParseUint" s0))
        else
          let n10 := (n * 10)%Z in
          let n1 := ((n10 + d) mod 2 ^ 64)%Z in
          if (n1 <? n10)%Z || (maxVal <? n1)%Z
          then (maxVal, Some (rangeError "ParseUint" s0))
          else parseDigits s0 maxVal rest n1
  end.

(** [strconv.ParseUint(s, 10, bitSize)], for a [bitSize] from 0 to 64. *)
Definition ParseUint (s : string) (bitSize : Z) : Z * option Error :=
  if String.eqb s "" then (0%Z, Some (syntaxError "ParseUint" s))
  else
    let bitSize := if (bitSize =? 0)%Z then IntSize else bitSize in
    parseDigits s (2 ^ bitSize - 1)%Z s 0%Z.

(** The cause of [err] when [err] is an error other than a range error. *)
Definition otherThanRange (err : option Error) : option Error :=
  match err with
  | Some (NumError _ _ ErrRange) => None
  | Some (NumError _ _ cause) => Some cause
  | Some e => Some e
  | None => None
  end.

(** [strconv.ParseInt(s, 10, bitSize)], for a [bitSize] from 0 to 64. *)
Definition ParseInt (s : string) (bitSize : Z) : Z * option Error :=
  match s with
  | EmptyString => (0%Z, Some (syntaxError "ParseInt" s))
  | String c rest =>
      let s0 := s in
      let '(neg, s) :=
        if Ascii.eqb c "+" then (false, rest)
        else if Ascii.eqb c "-" then (true, rest)
        else (false, s) in
      let '(un, err) := ParseUint s bitSize in
      match otherThanRange err with
      | Some cause => (0%Z, Some (NumError "ParseInt" s0 cause))
      | None =>
          let bitSize := if (bitSize =? 0)%Z then IntSize else bitSize in
          let cutoff := (2 ^ (bitSize - 1))%Z in
          if negb neg && (cutoff <=? un)%Z
          then ((cutoff - 1)%Z, Some (rangeError "ParseInt" s0))
          else if neg && (cutoff <? un)%Z
          then ((- cutoff)%Z, Some (rangeError "ParseInt" s0))
          else ((if neg then - un else un)%Z, None)
      end
  end.

End Strconv.

(** ** Values *)

(** [type File struct { Name string; Size int64; Content []byte }];
    [Content] is [None] for the nil slice. *)
Record File := mkFile {
  Name : string;
  Size : Z;
  Content : option (list Byte.byte)
}.

(** What a field of the destination holds.  Floats and complex numbers are
    kept as the bit patterns of their parts; a slice is [None] when nil; a
    value of a kind the binder never builds is [None] when it is the zero
    value and an opaque token otherwise. *)
#[warnings="-register-all"]
Inductive Value :=
| VBool (b : bool)
| VInt (n : Z)
| VUint (n : Z)
| VFloat (bits : Z)
| VComplex (re im : Z)
| VString (s : string)
| VSlice (elems : option (list Value))
| VFile (f : File)
| VFilePtr (p : option File)
| VOther (token : option string).

#[global] Instance Value_inhabited : Inhabited Value := populate (VOther None).

(** The zero value of a type ([reflect.Zero], [Value.SetZero]). *)
Definition zero (t : GoType) : Value :=
  match t with
  | TBool => VBool false
  | TInt _ => VInt 0
  | TUint _ => VUint 0
  | TFloat _ => VFloat 0
  | TComplex _ => VComplex 0 0
  | TString => VString ""
  | TSlice _ => VSlice None
  | TPointer TFile => VFilePtr None
  | TPointer _ => VOther None
  | TFile => VFile (mkFile "" 0 None)
  | TOther _ _ => VOther None
  end.

(** [len] of a slice value. *)
Definition sliceLen (v : Value) : nat :=
  match v with
  | VSlice (Some elems) => length elems
  | _ => 0%nat
  end.

(** [reflect.MakeSlice(typ, n, n)]: [n] zero elements. *)
Definition MakeSlice (elem : GoType) (n : nat) : list Value :=
  replicate n (zero elem).

(** ** The destination's type *)

(** A struct tag, as the key/value pairs in the order they are written. *)
Definition StructTag := list (string * string).

(** [StructTag.Lookup(key)]: the value of the first pair with this key. *)
Definition Lookup (tag : StructTag) (key : string) : string * bool :=
  match find (fun kv => String.eqb (fst kv) key) tag with
  | Some kv => (snd kv, true)
  | None => ("", false)
  end.

(** [reflect.StructField]. *)
Record StructField := mkField {
  FieldName : string;
  PkgPath : string;
  Type_ : GoType;
  Tag : StructTag
}.

(** [StructField.IsExported()]. *)
Definition IsExported (f : StructField) : bool := String.eqb (PkgPath f) "".

(** [Value.CanSet()] of a field reached through the destination pointer: the
    struct is addressable, so the field is settable unless it is unexported. *)
Definition CanSet (f : StructField) : bool := IsExported f.

(** ** The request *)

(** An [io.Reader]: the bytes still to be read and the error that ends
    them, if any. *)
Record Reader := mkReader {
  pending : list Byte.byte;
  fault : option Error
}.

(** [io.ReadAll]: everything up to the end or the error; the reader is
    drained. *)
Definition ReadAll (r : Reader) : list Byte.byte * option Error * Reader :=
  (pending r, fault r, mkReader [] (fault r)).

(** [multipart.FileHeader] with the part's content. *)
Record FileHeader := mkFileHeader {
  Filename : string;
  FileSize : Z;
  Part : Reader
}.

(** [multipart.Form]. *)
Record Form := mkForm {
  FormValue : gmap string (list string);
  FormFiles : gmap string (list FileHeader)
}.

(** What the binder reads of [*http.Request] and nothing changes during a
    bind: the declared length, the headers, the query and the path
    parameters, through their accessors. *)
Record Request := mkRequest {
  ContentLength : Z;
  Header_Get : string -> string;
  URL_Query_Get : string -> string;
  PathValue : string -> string
}.

(** What a bind can change of [*http.Request]: the parsed forms ([None]
    while nil) and the body stream. *)
Record Streams := mkStreams {
  PostForm : option (gmap string (list string));
  MultipartForm : option Form;
  Body : Reader
}.

(** [request.PostForm[key]]; indexing a nil map gives the nil slice. *)
Definition PostForm_index (s : Streams) (key : string) : list string :=
  match PostForm s with
  | Some m => default [] (m !! key)
  | None => []
  end.

(** The collaborators: the request's form machinery, the JSON decoder, and
    the parsers of [mime] and [strconv] that are not modelled. *)
Record Env := mkEnv {
  (** [request.ParseMultipartForm(maxMemory)] *)
  ParseMultipartForm : Z -> Request -> Streams -> option Error * Streams;
  (** [request.FormFile(key)]: the opened part and its header, or an error *)
  FormFile : string -> Request -> Streams ->
             (Error + Reader * FileHeader) * Streams;
  (** [mime.ParseMediaType(v)] *)
  ParseMediaType : string -> string * gmap string string * option Error;
  (** [json.NewDecoder(body).Decode(destination)] on the destination's
      fields and their values *)
  Decode : list StructField -> Reader -> list Value ->
           option Error * Reader * list Value;
  (** [strconv.ParseFloat(s, bitSize)], as the bits of the result *)
  ParseFloat : string -> Z -> Z * option Error;
  (** [strconv.ParseComplex(s, bitSize)], as the bits of both parts *)
  ParseComplex : string -> Z -> (Z * Z) * option Error
}.

Definition set_Body (s : Streams) (body : Reader) : Streams :=
  mkStreams (PostForm s) (MultipartForm s) body.

(** ** [convert]: a raw string into a field *)

(** The result of a [strconv] parser in [convert]: the field is set when the
    parse succeeded, and the error is wrapped after the [switch] otherwise. *)
Definition parsed (k : Reflect.Kind) (field set : Value) (err : option Error)
  : Value * option Error :=
  match err with
  | None => (set, None)
  | Some err => (field, Some (Wrap (MsgParseValue k) err))
  end.

(** The loop of the slice case: [conv] is [convert] at the element type,
    [slice.Index(i)] the element it fills. *)
Fixpoint convertElements (conv : Value -> string -> Value * option Error)
    (i : nat) (parts : list string) (slice : list Value)
  : list Value * option Error :=
  match parts with
  | [] => (slice, None)
  | part :: parts =>
      let '(e, err) := conv (slice !!! i) part in
      let slice := <[i := e]> slice in
      match err with
      | Some err => (slice, Some (Wrap (MsgSliceElementIndex i) err))
      | None => convertElements conv (S i) parts slice
      end
  end.

(** [convert(field, fieldType, value)]: the field afterwards and the error
    returned.  [field.Kind()] is the kind of [fieldType]. *)
Fixpoint convert (E : Env) (fieldType : GoType) (field : Value)
    (value : string) {struct fieldType} : Value * option Error :=
  if String.eqb value "" then (field, None)
  else
    match fieldType with
    | TBool =>
        let '(v, err) := Strconv.ParseBool value in
        parsed (Kind fieldType) field (VBool v) err
    | TInt _ =>
        let '(v, err) := Strconv.ParseInt value (Bits fieldType) in
        parsed (Kind fieldType) field (VInt v) err
    | TUint _ =>
        let '(v, err) := Strconv.ParseUint value (Bits fieldType) in
        parsed (Kind fieldType) field (VUint v) err
    | TFloat _ =>
        let '(v, err) := ParseFloat E value (Bits fieldType) in
        parsed (Kind fieldType) field (VFloat v) err
    | TComplex _ =>
        let '(v, err) := ParseComplex E value (Bits fieldType) in
        parsed (Kind fieldType) field (VComplex (fst v) (snd v)) err
    | TSlice element =>
        if decide (Kind element = Reflect.Slice)
        then (field, Some (New (MsgSliceElementKind (Kind element))))
        else
          let parts := GoStrings.Split value "," in
          let slice := MakeSlice element (length parts) in
          let '(slice, err) := convertElements (convert E element) 0 parts slice in
          match err with
          | Some err => (field, Some err)
          | None => (VSlice (Some slice), None)
          end
    | TString => (VString value, None)
    | _ => (field, Some (New (MsgKindNotSupported (Kind fieldType))))
    end.

(** ** [convertBody]: the JSON pass *)

(** The loop of [convertBody] over the fields still to inspect;
    [destinationType] is the whole struct type, which the decoder reflects
    on. *)
Fixpoint convertBody_loop (E : Env) (destinationType fields : list StructField)
    (s : Streams) (v : list Value) : option Error * Streams * list Value :=
  match fields with
  | [] => (None, s, v)
  | field :: fields =>
      if negb (IsExported field) then convertBody_loop E destinationType fields s v
      else
        let '(tag, ok) := Lookup (Tag field) "json" in
        if negb ok then convertBody_loop E destinationType fields s v
        else if String.eqb tag "-" then convertBody_loop E destinationType fields s v
        else
          let '(err, body, v) := Decode E destinationType (Body s) v in
          match err with
          | Some err => (Some (Wrap MsgDecodeBody err), set_Body s body, v)
          | None => (None, set_Body s body, v)   (* break *)
          end
  end.

Definition convertBody (E : Env) (request : Request)
    (destinationType : list StructField) (s : Streams) (v : list Value)
  : option Error * Streams * list Value :=
  if (ContentLength request =? 0)%Z then (None, s, v)
  else
    let '(base, _, _) := GoStrings.Cut (Header_Get request "Content-Type") ";" in
    if negb (String.eqb (GoStrings.TrimSpace base) "application/json")
    then (None, s, v)
    else convertBody_loop E destinationType destinationType s v.

(** ** [Convert]: the loop over the fields *)

(** How one pass through the loop body ends: [continue], or a [return]
    from [Convert] with its error ([None] for [nil]). *)
Inductive Flow :=
| Continue
| Return (err : option Error).

(** [convert(fieldValue, field.Type, value)] in a branch of the loop, where
    [fieldValue] is [v.Field(i)]; an error is wrapped in [msg]. *)
Definition convertField (E : Env) (field : StructField) (i : nat)
    (msg : Message) (value : string) (s : Streams) (v : list Value)
  : Flow * Streams * list Value :=
  let '(fieldValue, err) := convert E (Type_ field) (v !!! i) value in
  let v := <[i := fieldValue]> v in
  match err with
  | Some err => (Return (Some (Wrap msg err)), s, v)
  | None => (Continue, s, v)
  end.

(** The [form] branch. *)
Definition bindForm (E : Env) (request : Request) (field : StructField)
    (i : nat) (tag : string) (s : Streams) (v : list Value)
  : Flow * Streams * list Value :=
  let '(err, s) :=
    match PostForm s with
    | None => ParseMultipartForm E (Z.shiftl 32 20) request s
    | Some _ => (None, s)
    end in
  match err with
  | Some err => (Return (Some (Wrap MsgParseMultipartForm err)), s, v)
  | None =>
      let value := match PostForm_index s tag with
                   | p0 :: _ => p0
                   | [] => ""
                   end in
      convertField E field i (MsgConvertForm tag (FieldName field)) value s v
  end.

(** The two type checks that open both [file] branches. *)
Definition fileTypeError (field : StructField) : option Error :=
  if negb (bool_decide (Kind (Type_ field) = Reflect.Pointer))
     && negb (bool_decide (Type_ field = TFile))
  then Some (New (MsgTypeNotSupported (Type_ field) (FieldName field)))
  else if bool_decide (Kind (Type_ field) = Reflect.Pointer)
          && negb (bool_decide (Type_ field = TPointer TFile))
  then Some (New (MsgTypeNotSupported (Type_ field) (FieldName field)))
  else None.

(** [fieldValue.Set] of a file, as a pointer to it or as the value. *)
Definition setFile (field : StructField) (i : nat) (f : File)
    (v : list Value) : list Value :=
  if bool_decide (Kind (Type_ field) = Reflect.Pointer)
  then <[i := VFilePtr (Some f)]> v
  else <[i := VFile f]> v.

(** The named [file] branch (a part of a multipart form). *)
Definition bindFile (E : Env) (request : Request) (field : StructField)
    (i : nat) (tag : string) (s : Streams) (v : list Value)
  : Flow * Streams * list Value :=
  match fileTypeError field with
  | Some err => (Return (Some err), s, v)
  | None =>
      let '(base, _, _) := GoStrings.Cut (Header_Get request "Content-Type") ";" in
      if negb (String.eqb (GoStrings.TrimSpace base) "multipart/form-data")
      then (Continue, s, v)
      else
        let '(found, s) := FormFile E tag request s in
        match found with
        | inl err =>
            if errors_Is err ErrMissingFile then (Continue, s, v)
            else (Return (Some (Wrap (MsgGetFormFile tag (FieldName field)) err)), s, v)
        | inr (file, fileHeader) =>
            let '(content, err, _) := ReadAll file in
            match err with
            | Some err =>
                (Return (Some (Wrap (MsgReadFormFile tag (FieldName field)) err)), s, v)
            | None =>
                let f := mkFile (Filename fileHeader) (FileSize fileHeader)
                                (Some content) in
                (Continue, s, setFile field i f v)
            end
        end
  end.

(** The [file:"binary"] branch (the whole body as one file). *)
Definition bindBinary (E : Env) (request : Request) (field : StructField)
    (i : nat) (tag : string) (s : Streams) (v : list Value)
  : Flow * Streams * list Value :=
  match fileTypeError field with
  | Some err => (Return (Some err), s, v)
  | None =>
      if (ContentLength request =? 0)%Z then (Return None, s, v)
      else
        let contentDisposition := Header_Get request "Content-Disposition" in
        let '(_, params, err) := ParseMediaType E contentDisposition in
        match err with
        | Some _ => (Continue, s, v)
        | None =>
            let filename := default "" (params !! "filename") in
            let filename := if String.eqb filename ""
                            then default "" (params !! "filename*")
                            else filename in
            if String.eqb filename "" then (Continue, s, v)
            else
              let '(content, err, body) := ReadAll (Body s) in
              let s := set_Body s body in
              match err with
              | Some err =>
                  (Return (Some (Wrap (MsgReadRawBody tag (FieldName field)) err)), s, v)
              | None =>
                  let f := mkFile filename (ContentLength request) (Some content) in
                  (Continue, s, setFile field i f v)
              end
        end
  end.

(** The [header], [query] and [path] branches. *)
Definition bindHeader (E : Env) (request : Request) (field : StructField)
    (i : nat) (tag : string) (s : Streams) (v : list Value)
  : Flow * Streams * list Value :=
  convertField E field i (MsgConvertHeader tag (FieldName field))
    (Header_Get request tag) s v.

Definition bindQuery (E : Env) (request : Request) (field : StructField)
    (i : nat) (tag : string) (s : Streams) (v : list Value)
  : Flow * Streams * list Value :=
  convertField E field i (MsgConvertQuery tag (FieldName field))
    (URL_Query_Get request tag) s v.

Definition bindPath (E : Env) (request : Request) (field : StructField)
    (i : nat) (tag : string) (s : Streams) (v : list Value)
  : Flow * Streams * list Value :=
  convertField E field i (MsgConvertPath tag (FieldName field))
    (PathValue request tag) s v.

(** [ok && tag != "" && tag != "-"]. *)
Definition present (l : string * bool) : bool :=
  snd l && negb (String.eqb (fst l) "") && negb (String.eqb (fst l) "-").

(** The body of the loop of [Convert] for the field of index [i]. *)
Definition fieldStep (E : Env) (request : Request) (field : StructField)
    (i : nat) (s : Streams) (v : list Value) : Flow * Streams * list Value :=
  if negb (IsExported field) then (Continue, s, v)
  else if negb (CanSet field) then (Continue, s, v)
  else
    let v := <[i := zero (Type_ field)]> v in          (* fieldValue.SetZero() *)
    let l := Lookup (Tag field) "form" in
    if present l then bindForm E request field i (fst l) s v
    else
      let l := Lookup (Tag field) "file" in
      if present l && negb (String.eqb (fst l) "binary")
      then bindFile E request field i (fst l) s v
      else
        let l := Lookup (Tag field) "file" in
        if snd l && String.eqb (fst l) "binary"
        then bindBinary E request field i (fst l) s v
        else
          let l := Lookup (Tag field) "header" in
          if present l then bindHeader E request field i (fst l) s v
          else
            let l := Lookup (Tag field) "query" in
            if present l then bindQuery E request field i (fst l) s v
            else
              let l := Lookup (Tag field) "path" in
              if present l then bindPath E request field i (fst l) s v
              else (Continue, s, v).

(** The loop of [Convert], from the field of index [i] on. *)
Fixpoint fieldsLoop (E : Env) (request : Request) (fields : list StructField)
    (i : nat) (s : Streams) (v : list Value)
  : option Error * Streams * list Value :=
  match fields with
  | [] => (None, s, v)
  | field :: fields =>
      match fieldStep E request field i s v with
      | (Continue, s, v) => fieldsLoop E request fields (S i) s v
      | (Return err, s, v) => (err, s, v)
      end
  end.

(** What [destination any] can be: the nil interface, a value that is not a
    pointer, a pointer to something that is not a struct, or a pointer to a
    struct, given by its fields and their values.  (A nil pointer to a
    struct, on which [Convert] panics, is left out.) *)
Inductive Destination :=
| DestNil
| DestNotPointer
| DestPointerToNonStruct
| DestStruct (destinationType : list StructField) (v : list Value).

(** [Convert(request, destination)]: the error returned, and the request's
    streams and the destination afterwards.  [request] is [None] for the nil
    pointer; [s] is the changeable part of the request. *)
Definition Convert (E : Env) (request : option Request) (s : Streams)
    (destination : Destination) : option Error * Streams * Destination :=
  match request with
  | None => (Some (New MsgRequestNil), s, destination)
  | Some request =>
      match destination with
      | DestNil => (Some (New MsgDestinationNil), s, destination)
      | DestNotPointer => (Some (New MsgDestinationNotPointer), s, destination)
      | DestPointerToNonStruct =>
          (Some (New MsgDestinationNotStruct), s, destination)
      | DestStruct destinationType v =>
          let '(err, s, v) := convertBody E request destinationType s v in
          match err with
          | Some err =>
              (Some (Wrap MsgConvertBody err), s, DestStruct destinationType v)
          | None =>
              let '(err, s, v) := fieldsLoop E request destinationType 0 s v in
              (err, s, DestStruct destinationType v)
          end
      end
  end.

(** ** The earlier variant

    The source file also carries an earlier variant of the three functions
    (its first 311 lines): the loop does not reset the field, [convert] does
    on the empty string, a missing multipart file is an error, and the whole
    body is bound from a [raw] tag instead of [file:"binary"].  [convertBody]
    is the same. *)

Module Earlier.

Fixpoint convert (E : Env) (fieldType : GoType) (field : Value)
    (value : string) {struct fieldType} : Value * option Error :=
  if String.eqb value "" then (zero fieldType, None)   (* field.SetZero() *)
  else
    match fieldType with
    | TBool =>
        let '(v, err) := Strconv.ParseBool value in
        parsed (Kind fieldType) field (VBool v) err
    | TInt _ =>
        let '(v, err) := Strconv.ParseInt value (Bits fieldType) in
        parsed (Kind fieldType) field (VInt v) err
    | TUint _ =>
        let '(v, err) := Strconv.ParseUint value (Bits fieldType) in
        parsed (Kind fieldType) field (VUint v) err
    | TFloat _ =>
        let '(v, err) := ParseFloat E value (Bits fieldType) in
        parsed (Kind fieldType) field (VFloat v) err
    | TComplex _ =>
        let '(v, err) := ParseComplex E value (Bits fieldType) in
        parsed (Kind fieldType) field (VComplex (fst v) (snd v)) err
    | TSlice element =>
        if decide (Kind element = Reflect.Slice)
        then (field, Some (New (MsgSliceElementKind (Kind element))))
        else
          let parts := GoStrings.Split value "," in
          let slice := MakeSlice element (length parts) in
          let '(slice, err) := convertElements (convert E element) 0 parts slice in
          match err with
          | Some err => (field, Some err)
          | None => (VSlice (Some slice), None)
          end
    | TString => (VString value, None)
    | _ => (field, Some (New (MsgKindNotSupported (Kind fieldType))))
    end.

Definition convertField (E : Env) (field : StructField) (i : nat)
    (msg : Message) (value : string) (s : Streams) (v : list Value)
  : Flow * Streams * list Value :=
  let '(fieldValue, err) := convert E (Type_ field) (v !!! i) value in
  let v := <[i := fieldValue]> v in
  match err with
  | Some err => (Return (Some (Wrap msg err)), s, v)
  | None => (Continue, s, v)
  end.

Definition bindForm (E : Env) (request : Request) (field : StructField)
    (i : nat) (tag : string) (s : Streams) (v : list Value)
  : Flow * Streams * list Value :=
  let '(err, s) :=
    match PostForm s with
    | None => ParseMultipartForm E (Z.shiftl 32 20) request s
    | Some _ => (None, s)
    end in
  match err with
  | Some err => (Return (Some (Wrap MsgParseMultipartForm err)), s, v)
  | None =>
      let value := match PostForm_index s tag with
                   | p0 :: _ => p0
                   | [] => ""
                   end in
      convertField E field i (MsgConvertForm tag (FieldName field)) value s v
  end.

(** The [file] branch: any error of [FormFile] is returned. *)
Definition bindFile (E : Env) (request : Request) (field : StructField)
    (i : nat) (tag : string) (s : Streams) (v : list Value)
  : Flow * Streams * list Value :=
  match fileTypeError field with
  | Some err => (Return (Some err), s, v)
  | None =>
      let '(found, s) := FormFile E tag request s in
      match found with
      | inl err =>
          (Return (Some (Wrap (MsgGetFormFile tag (FieldName field)) err)), s, v)
      | inr (file, fileHeader) =>
          let '(content, err, _) := ReadAll file in
          match err with
          | Some err =>
              (Return (Some (Wrap (MsgReadFormFile tag (FieldName field)) err)), s, v)
          | None =>
              let f := mkFile (Filename fileHeader) (FileSize fileHeader)
                              (Some content) in
              (Continue, s, setFile field i f v)
          end
      end
  end.

(** The [raw] branch. *)
Definition bindRaw (E : Env) (request : Request) (field : StructField)
    (i : nat) (tag : string) (s : Streams) (v : list Value)
  : Flow * Streams * list Value :=
  match fileTypeError field with
  | Some err => (Return (Some err), s, v)
  | None =>
      let contentDisposition := Header_Get request "Content-Disposition" in
      let '(_, params, err) := ParseMediaType E contentDisposition in
      match err with
      | Some err =>
          (Return (Some (Wrap (MsgParseRawBodyMediaType tag (FieldName field)) err)),
           s, v)
      | None =>
          let filename := default "" (params !! "filename") in
          let filename := if String.eqb filename ""
                          then default "" (params !! "filename*")
                          else filename in
          let '(content, err, body) := ReadAll (Body s) in
          let s := set_Body s body in
          match err with
          | Some err =>
              (Return (Some (Wrap (MsgReadRawBody tag (FieldName field)) err)), s, v)
          | None =>
              let f := mkFile filename (ContentLength request) (Some content) in
              (Continue, s, setFile field i f v)
          end
      end
  end.

(** The body of the loop: no reset, and the tags in the order form, file,
    raw, header, query, path. *)
Definition fieldStep (E : Env) (request : Request) (field : StructField)
    (i : nat) (s : Streams) (v : list Value) : Flow * Streams * list Value :=
  if negb (IsExported field) then (Continue, s, v)
  else if negb (CanSet field) then (Continue, s, v)
  else
    let l := Lookup (Tag field) "form" in
    if present l then bindForm E request field i (fst l) s v
    else
      let l := Lookup (Tag field) "file" in
      if present l then bindFile E request field i (fst l) s v
      else
        let l := Lookup (Tag field) "raw" in
        if present l then bindRaw E request field i (fst l) s v
        else
          let l := Lookup (Tag field) "header" in
          if present l
          then convertField E field i (MsgConvertHeader (fst l) (FieldName field))
                 (Header_Get request (fst l)) s v
          else
            let l := Lookup (Tag field) "query" in
            if present l
            then convertField E field i (MsgConvertQuery (fst l) (FieldName field))
                   (URL_Query_Get request (fst l)) s v
            else
              let l := Lookup (Tag field) "path" in
              if present l
              then convertField E field i (MsgConvertPath (fst l) (FieldName field))
                     (PathValue request (fst l)) s v
              else (Continue, s, v).

Fixpoint fieldsLoop (E : Env) (request : Request) (fields : list StructField)
    (i : nat) (s : Streams) (v : list Value)
  : option Error * Streams * list Value :=
  match fields with
  | [] => (None, s, v)
  | field :: fields =>
      match fieldStep E request field i s v with
      | (Continue, s, v) => fieldsLoop E request fields (S i) s v
      | (Return err, s, v) => (err, s, v)
      end
  end.

Definition Convert (E : Env) (request : option Request) (s : Streams)
    (destination : Destination) : option Error * Streams * Destination :=
  match request with
  | None => (Some (New MsgRequestNil), s, destination)
  | Some request =>
      match destination with
      | DestNil => (Some (New MsgDestinationNil), s, destination)
      | DestNotPointer => (Some (New MsgDestinationNotPointer), s, destination)
      | DestPointerToNonStruct =>
          (Some (New MsgDestinationNotStruct), s, destination)
      | DestStruct destinationType v =>
          let '(err, s, v) := convertBody E request destinationType s v in
          match err with
          | Some err =>
              (Some (Wrap MsgConvertBody err), s, DestStruct destinationType v)
          | None =>
              let '(err, s, v) := fieldsLoop E request destinationType 0 s v in
              (err, s, DestStruct destinationType v)
          end
      end
  end.

End Earlier.

(** ** The source of a field, as the specification words it *)

(** The five sources of the loop, and the tag key of each. *)
Inductive Source := SForm | SFile | SHeader | SQuery | SPath.

#[global] Instance Source_eq_decision : EqDecision Source.
Proof. solve_decision. Defined.

Definition tagKey (src : Source) : string :=
  match src with
  | SForm => "form"
  | SFile => "file"
  | SHeader => "header"
  | SQuery => "query"
  | SPath => "path"
  end.

(** form > file > header > query > path. *)
Definition precedence : list Source := [SForm; SFile; SHeader; SQuery; SPath].

(** The place of a source in [precedence]. *)
Definition rank (src : Source) : nat :=
  match src with
  | SForm => 0
  | SFile => 1
  | SHeader => 2
  | SQuery => 3
  | SPath => 4
  end.

(** The value of the field's tag for a source, when the field carries one
    that is neither empty nor ["-"]. *)
Definition tagValue (field : StructField) (src : Source) : option string :=
  let l := Lookup (Tag field) (tagKey src) in
  if present l then Some (fst l) else None.

(** The first source in precedence order for which the field carries a tag,
    with the tag's value. *)
Definition selected (field : StructField) : option (Source * string) :=
  head (omap (fun src => pair src <$> tagValue field src) precedence).

(** Binding a field from one source alone. *)
Definition bindFrom (E : Env) (request : Request) (field : StructField)
    (i : nat) (src : Source) (tag : string) (s : Streams) (v : list Value)
  : Flow * Streams * list Value :=
  match src with
  | SForm => bindForm E request field i tag s v
  | SFile => if String.eqb tag "binary"
             then bindBinary E request field i tag s v
             else bindFile E request field i tag s v
  | SHeader => bindHeader E request field i tag s v
  | SQuery => bindQuery E request field i tag s v
  | SPath => bindPath E request field i tag s v
  end.

(** The field's type is [File] or [*File]. *)
Definition isFileType (t : GoType) : bool :=
  bool_decide (t = TFile) || bool_decide (t = TPointer TFile).

(** The raw string a source yields for a tag, with the streams afterwards:
    the header, the query or the path parameter of that name, or the first
    form value of that name once the form is parsed.  [None] when parsing the
    form fails, and for the file source, which yields no string. *)
Definition extracted (E : Env) (request : Request) (src : Source)
    (tag : string) (s : Streams) : option (string * Streams) :=
  match src with
  | SForm =>
      let '(err, s) :=
        match PostForm s with
        | None => ParseMultipartForm E (Z.shiftl 32 20) request s
        | Some _ => (None, s)
        end in
      match err with
      | Some _ => None
      | None => Some (match PostForm_index s tag with
                      | p0 :: _ => p0
                      | [] => ""
                      end, s)
      end
  | SFile => None
  | SHeader => Some (Header_Get request tag, s)
  | SQuery => Some (URL_Query_Get request tag, s)
  | SPath => Some (PathValue request tag, s)
  end.

(** ** The JSON pass, as the specification words it *)

(** An exported field with a [json] tag other than ["-"]. *)
Definition hasBodyTag (field : StructField) : bool :=
  IsExported field
  && snd (Lookup (Tag field) "json")
  && negb (String.eqb (fst (Lookup (Tag field) "json")) "-").

(** The content type before any [;]. *)
Definition mediaType (request : Request) : string :=
  fst (fst (GoStrings.Cut (Header_Get request "Content-Type") ";")).

(** The condition of the JSON pass as the claim words it: the text before
    the parameters is the JSON media type itself. *)
Definition claimedBodyCondition (request : Request)
    (destinationType : list StructField) : bool :=
  negb (ContentLength request =? 0)%Z
  && String.eqb (mediaType request) "application/json"
  && existsb hasBodyTag destinationType.

(** The condition the code tests: the same, up to white space around the
    media type. *)
Definition bodyCondition (request : Request)
    (destinationType : list StructField) : bool :=
  negb (ContentLength request =? 0)%Z
  && String.eqb (GoStrings.TrimSpace (mediaType request)) "application/json"
  && existsb hasBodyTag destinationType.

(** One run of the decoder on the body, into the destination. *)
Definition decodeOnce (E : Env) (destinationType : list StructField)
    (s : Streams) (v : list Value) : option Error * Streams * list Value :=
  let '(err, body, v) := Decode E destinationType (Body s) v in
  (Wrap MsgDecodeBody <$> err, set_Body s body, v).

(** The loop of [Convert] gets past [fields], every step ending in
    [continue]: the streams and the destination it then has. *)
Fixpoint fieldsReach (E : Env) (request : Request) (fields : list StructField)
    (i : nat) (s : Streams) (v : list Value) : option (Streams * list Value) :=
  match fields with
  | [] => Some (s, v)
  | field :: fields =>
      match fieldStep E request field i s v with
      | (Continue, s, v) => fieldsReach E request fields (S i) s v
      | (Return _, _, _) => None
      end
  end.

(** [v'] is [v] but for the field of index [i]. *)
Definition onlyAt (i : nat) (v v' : list Value) : Prop :=
  length v' = length v /\ forall j, j <> i -> v' !! j = v !! j.

(** ** Worked examples: the data they run on *)

(** Collaborators for the worked examples: a request that is not a multipart
    form and carries no file, a header that is no media type, a decoder that
    reads the body to its end and leaves the destination as it is, and
    parsers that reject their input. *)
Definition sampleEnv : Env :=
  mkEnv
    (fun _ _ s => (Some (ErrExternal "request Content-Type isn't multipart/form-data"), s))
    (fun _ _ s => (inl ErrMissingFile, s))
    (fun _ => ("", ∅, Some (ErrExternal "mime: no media type")))
    (fun _ body v => (None, mkReader [] (fault body), v))
    (fun s _ => (0%Z, Some (Strconv.syntaxError "ParseFloat" s)))
    (fun s _ => ((0%Z, 0%Z), Some (Strconv.syntaxError "ParseComplex" s))).

(** A request with the given length and headers, and neither query nor
    path parameters. *)
Definition sampleRequest (contentLength : Z) (headers : list (string * string))
  : Request :=
  mkRequest contentLength
    (fun key => match find (fun kv => String.eqb (fst kv) key) headers with
                | Some kv => snd kv
                | None => ""
                end)
    (fun _ => "") (fun _ => "").

(** Streams of a request whose forms are not parsed yet, with this body. *)
Definition sampleStreams (body : list Byte.byte) : Streams :=
  mkStreams None None (mkReader body None).

(** [Page int `header:"X-Page" query:"page"`]. *)
Definition pageField : StructField :=
  mkField "Page" "" (TInt KInt) [("header", "X-Page"); ("query", "page")].

(** [IDs []int `query:"ids"`]. *)
Definition idsField : StructField :=
  mkField "IDs" "" (TSlice (TInt KInt)) [("query", "ids")].

(** [Name string `json:"name"`]. *)
Definition nameField : StructField :=
  mkField "Name" "" TString [("json", "name")].

(** [Upload File `file:"binary"`]. *)
Definition uploadField : StructField :=
  mkField "Upload" "" TFile [("file", "binary")].

(** [Avatar *File `file:"avatar"`]. *)
Definition avatarField : StructField :=
  mkField "Avatar" "" (TPointer TFile) [("file", "avatar")].

(** [Count int], without a tag. *)
Definition countField : StructField :=
  mkField "Count" "" (TInt KInt) [].


(** The two bytes of the body [{}]. *)
Definition emptyObject : list Byte.byte := [Byte.x7b; Byte.x7d].

(** ** Notions for the further properties *)

(** [strings.Join(parts, sep)] for a one-byte separator. *)
Fixpoint Join (parts : list string) (sep : ascii) : string :=
  match parts with
  | [] => EmptyString
  | [part] => part
  | part :: parts => String.append part (String sep (Join parts sep))
  end.

(** A decimal digit. *)
Definition isDigit (c : ascii) : bool :=
  (48 <=? Z.of_nat (nat_of_ascii c))%Z && (Z.of_nat (nat_of_ascii c) <=? 57)%Z.

(** The string consists of decimal digits. *)
Fixpoint allDigits (s : string) : bool :=
  match s with
  | EmptyString => true
  | String c rest => isDigit c && allDigits rest
  end.

(** The number a string of decimal digits denotes, after the digits that
    made up [n]. *)
Fixpoint decimalFrom (s : string) (n : Z) : Z :=
  match s with
  | EmptyString => n
  | String c rest => decimalFrom rest (n * 10 + (Z.of_nat (nat_of_ascii c) - 48))%Z
  end.

Definition decimalValue (s : string) : Z := decimalFrom s 0.

(** The value is one a variable of the type can hold: of the right shape,
    an integer within the width of its type, a slice of such values. *)
Fixpoint hasType (t : GoType) (x : Value) : Prop :=
  match t, x with
  | TBool, VBool _ => True
  | TInt _, VInt n => (- 2 ^ (Bits t - 1) <= n < 2 ^ (Bits t - 1))%Z
  | TUint _, VUint n => (0 <= n < 2 ^ Bits t)%Z
  | TFloat _, VFloat _ => True
  | TComplex _, VComplex _ _ => True
  | TString, VString _ => True
  | TSlice _, VSlice None => True
  | TSlice elem, VSlice (Some elems) => Forall (hasType elem) elems
  | TPointer TFile, VFilePtr _ => True
  | TPointer TFile, _ => False
  | TPointer _, VOther _ => True
  | TFile, VFile _ => True
  | TOther _ _, VOther _ => True
  | _, _ => False
  end.

(** Every field of the destination holds a value of its type. *)
Definition typed (destinationType : list StructField) (v : list Value) : Prop :=
  Forall2 (fun field x => hasType (Type_ field) x) destinationType v.

(** The field is bound from the headers, the query or the path, or from
    nothing: no branch that parses the form or reads the body. *)
Definition readsNoStream (field : StructField) : bool :=
  match selected field with
  | Some (SForm, _) | Some (SFile, _) => false
  | _ => true
  end.

(** The raw string of a header, query or path source. *)
Definition rawValue (request : Request) (src : Source) (tag : string) : string :=
  match src with
  | SHeader => Header_Get request tag
  | SQuery => URL_Query_Get request tag
  | SPath => PathValue request tag
  | SForm | SFile => ""
  end.


(** Collaborators as [sampleEnv], but with a decoder that stores ["a"] in
    the first field of the destination. *)
Definition storingEnv : Env :=
  mkEnv (ParseMultipartForm sampleEnv) (FormFile sampleEnv)
    (ParseMediaType sampleEnv)
    (fun _ body v => (None, mkReader [] (fault body), <[0 := VString "a"]> v))
    (ParseFloat sampleEnv) (ParseComplex sampleEnv).

(** [secret string `header:"X-Secret"`], unexported. *)
Definition secretField : StructField :=
  mkField "secret" "http2struct" TString [("header", "X-Secret")].

(** A file as a field of type [t] holds it: behind a pointer, or as the
    value. *)
Definition fileValue (t : GoType) (f : File) : Value :=
  if bool_decide (Kind t = Reflect.Pointer) then VFilePtr (Some f) else VFile f.

(** The file name the binary branch finds in [Content-Disposition]: the
    [filename] parameter, else the [filename*] parameter; [None] when the
    header does not parse or gives neither. *)
Definition binaryFilename (E : Env) (request : Request) : option string :=
  let '(_, params, err) :=
    ParseMediaType E (Header_Get request "Content-Disposition") in
  match err with
  | Some _ => None
  | None =>
      let filename := default "" (params !! "filename") in
      let filename := if String.eqb filename ""
                      then default "" (params !! "filename*")
                      else filename in
      if String.eqb filename "" then None else Some filename
  end.


(** Collaborators as [sampleEnv], but with a [Content-Disposition] that
    parses and names the file [a.bin]. *)
Definition uploadEnv : Env :=
  mkEnv (ParseMultipartForm sampleEnv) (FormFile sampleEnv)
    (fun _ => ("attachment", {[ "filename" := "a.bin" ]}, None))
    (Decode sampleEnv) (ParseFloat sampleEnv) (ParseComplex sampleEnv).

(** Collaborators as [sampleEnv], but with a multipart form that holds one
    file whatever the name asked for: [b.txt], declared 2 bytes long. *)
Definition partEnv : Env :=
  mkEnv (ParseMultipartForm sampleEnv)
    (fun _ _ s =>
       (inr (mkReader emptyObject None,
             mkFileHeader "b.txt" 2 (mkReader emptyObject None)), s))
    (ParseMediaType sampleEnv) (Decode sampleEnv)
    (ParseFloat sampleEnv) (ParseComplex sampleEnv).

(** * Properties *)

Local Open Scope list_scope.

(** ** The library models on examples *)

Example Cut_media_type :
  GoStrings.Cut "application/json ; charset=utf-8" ";"
  = ("application/json ", " charset=utf-8", true).
Proof. reflexivity. Qed.

Example Cut_no_separator : GoStrings.Cut "text/plain" ";" = ("text/plain", "", false).
Proof. reflexivity. Qed.

Example TrimSpace_ascii :
  GoStrings.TrimSpace "  application/json " = "application/json".
Proof. vm_compute. reflexivity. Qed.

(** A no-break space (U+00A0) in front and an en quad (U+2000) behind. *)
Example TrimSpace_unicode :
  GoStrings.TrimSpace (GoStrings.bytes [194; 160; 65; 32; 66; 226; 128; 128])
  = "A B".
Proof. vm_compute. reflexivity. Qed.

Example ParseInt_int8_lowest : Strconv.ParseInt "-128" 8 = ((-128)%Z, None).
Proof. reflexivity. Qed.

Example ParseInt_int8_out_of_range :
  Strconv.ParseInt "128" 8 = (127%Z, Some (Strconv.rangeError "ParseInt" "128")).
Proof. reflexivity. Qed.

Example ParseUint_overflow :
  Strconv.ParseUint "18446744073709551616" 64
  = (Strconv.maxUint64, Some (Strconv.rangeError "ParseUint" "18446744073709551616")).
Proof. vm_compute. reflexivity. Qed.

Example ParseUint_sign_is_no_digit :
  Strconv.ParseUint "+1" 8 = (0%Z, Some (Strconv.syntaxError "ParseUint" "+1")).
Proof. reflexivity. Qed.

(** [Split] gives one part more than there are separators. *)
Lemma Split_length s sep :
  length (GoStrings.Split s sep) = S (GoStrings.Count s sep).
Proof.
  induction s as [|c rest IH]; [reflexivity|].
  cbn [GoStrings.Split GoStrings.Count].
  destruct (Ascii.eqb c sep).
  - cbn [length]. rewrite IH. reflexivity.
  - destruct (GoStrings.Split rest sep) as [|part parts]; [discriminate|].
    cbn [length] in *. exact IH.
Qed.

(** ** Tags and sources *)

Lemma selected_cascade field :
  selected field =
    if present (Lookup (Tag field) "form") then Some (SForm, fst (Lookup (Tag field) "form"))
    else if present (Lookup (Tag field) "file") then Some (SFile, fst (Lookup (Tag field) "file"))
    else if present (Lookup (Tag field) "header") then Some (SHeader, fst (Lookup (Tag field) "header"))
    else if present (Lookup (Tag field) "query") then Some (SQuery, fst (Lookup (Tag field) "query"))
    else if present (Lookup (Tag field) "path") then Some (SPath, fst (Lookup (Tag field) "path"))
    else None.
Proof.
  unfold selected, precedence, tagValue.
  cbv [omap list_omap tagKey].
  destruct (present (Lookup (Tag field) "form")); [reflexivity|].
  destruct (present (Lookup (Tag field) "file")); [reflexivity|].
  destruct (present (Lookup (Tag field) "header")); [reflexivity|].
  destruct (present (Lookup (Tag field) "query")); [reflexivity|].
  destruct (present (Lookup (Tag field) "path")); reflexivity.
Qed.

Lemma present_ok l : present l = true -> snd l = true.
Proof.
  unfold present. intros H. apply andb_prop in H as [H _].
  apply andb_prop in H as [H _]. exact H.
Qed.

Lemma binary_present tag ok :
  String.eqb tag "binary" = true -> present (tag, ok) = ok.
Proof.
  intros H. apply String.eqb_eq in H. subst tag. unfold present. cbn.
  destruct ok; reflexivity.
Qed.

(** The loop body, for an exported field: reset, then the selected source
    alone. *)
Lemma fieldStep_selected E request field i s v :
  IsExported field = true ->
  fieldStep E request field i s v =
    match selected field with
    | Some (src, tag) =>
        bindFrom E request field i src tag s (<[i := zero (Type_ field)]> v)
    | None => (Continue, s, <[i := zero (Type_ field)]> v)
    end.
Proof.
  intros Hexp. unfold fieldStep, CanSet. rewrite Hexp. cbn [negb].
  rewrite selected_cascade.
  destruct (present (Lookup (Tag field) "form")) eqn:Hform; [reflexivity|].
  destruct (Lookup (Tag field) "file") as [ftag fok] eqn:Hfile. cbn [fst snd].
  destruct (String.eqb ftag "binary") eqn:Hbin.
  - rewrite (binary_present _ _ Hbin). rewrite andb_false_r.
    destruct fok; cbn [andb bindFrom]; [rewrite Hbin; reflexivity|].
    destruct (present (Lookup (Tag field) "header")); [reflexivity|].
    destruct (present (Lookup (Tag field) "query")); [reflexivity|].
    destruct (present (Lookup (Tag field) "path")); reflexivity.
  - rewrite andb_true_r, andb_false_r.
    destruct (present (ftag, fok)); cbn [bindFrom]; [rewrite Hbin; reflexivity|].
    destruct (present (Lookup (Tag field) "header")); [reflexivity|].
    destruct (present (Lookup (Tag field) "query")); [reflexivity|].
    destruct (present (Lookup (Tag field) "path")); reflexivity.
Qed.

(** The branch of a source looks at the field's name and type only. *)
Lemma bindFrom_same_shape E request field field' i src tag s v :
  FieldName field' = FieldName field ->
  Type_ field' = Type_ field ->
  bindFrom E request field' i src tag s v = bindFrom E request field i src tag s v.
Proof.
  destruct field as [n p t tg], field' as [n' p' t' tg']. cbn.
  intros -> ->. reflexivity.
Qed.

(** The selected source depends on the tags down to it only. *)
Lemma selected_agree field field' src tag :
  selected field = Some (src, tag) ->
  (forall src', rank src' <= rank src ->
     Lookup (Tag field') (tagKey src') = Lookup (Tag field) (tagKey src')) ->
  selected field' = Some (src, tag).
Proof.
  intros Hsel Hagree. rewrite selected_cascade in Hsel |- *.
  assert (Hform := Hagree SForm). assert (Hfile := Hagree SFile).
  assert (Hheader := Hagree SHeader). assert (Hquery := Hagree SQuery).
  assert (Hpath := Hagree SPath). cbn [rank tagKey] in *.
  destruct (present (Lookup (Tag field) "form")) eqn:H1.
  { inversion Hsel; subst. rewrite Hform, H1 by (cbn; lia). reflexivity. }
  destruct (present (Lookup (Tag field) "file")) eqn:H2.
  { inversion Hsel; subst. rewrite Hform, H1, Hfile, H2 by (cbn; lia). reflexivity. }
  destruct (present (Lookup (Tag field) "header")) eqn:H3.
  { inversion Hsel; subst.
    rewrite Hform, H1, Hfile, H2, Hheader, H3 by (cbn; lia). reflexivity. }
  destruct (present (Lookup (Tag field) "query")) eqn:H4.
  { inversion Hsel; subst.
    rewrite Hform, H1, Hfile, H2, Hheader, H3, Hquery, H4 by (cbn; lia).
    reflexivity. }
  destruct (present (Lookup (Tag field) "path")) eqn:H5; [|discriminate].
  inversion Hsel; subst.
  rewrite Hform, H1, Hfile, H2, Hheader, H3, Hquery, H4, Hpath, H5 by (cbn; lia).
  reflexivity.
Qed.

(** C1.  A field is bound from exactly one source: the first of form, file,
    header, query, path for which it carries a tag that is neither empty nor
    ["-"].  After the reset, the loop body is the branch of that source and
    nothing else; and the tags of the sources after it are not looked at: a
    field that differs in them only goes through the same step. *)
Theorem Convert_source_precedence E request field i s v src tag :
  IsExported field = true ->
  selected field = Some (src, tag) ->
  fieldStep E request field i s v =
    bindFrom E request field i src tag s (<[i := zero (Type_ field)]> v)
  /\ (forall field',
        FieldName field' = FieldName field ->
        PkgPath field' = PkgPath field ->
        Type_ field' = Type_ field ->
        (forall src', rank src' <= rank src ->
           Lookup (Tag field') (tagKey src') = Lookup (Tag field) (tagKey src')) ->
        fieldStep E request field' i s v = fieldStep E request field i s v).
Proof.
  intros Hexp Hsel. split.
  - rewrite fieldStep_selected by exact Hexp. rewrite Hsel. reflexivity.
  - intros field' Hname Hpkg Htype Hagree.
    assert (Hexp' : IsExported field' = true).
    { unfold IsExported in *. rewrite Hpkg. exact Hexp. }
    rewrite !fieldStep_selected by assumption.
    rewrite (selected_agree field field' src tag Hsel Hagree), Hsel, Htype.
    apply bindFrom_same_shape; assumption.
Qed.

(** ** [convert] *)

Lemma convert_empty E fieldType field :
  convert E fieldType field "" = (field, None).
Proof. destruct fieldType; reflexivity. Qed.

Lemma convert_nonempty_slice E element field value :
  value <> "" ->
  convert E (TSlice element) field value =
    if decide (Kind element = Reflect.Slice)
    then (field, Some (New (MsgSliceElementKind (Kind element))))
    else
      let parts := GoStrings.Split value "," in
      let '(slice, err) :=
        convertElements (convert E element) 0 parts
          (MakeSlice element (length parts)) in
      match err with
      | Some err => (field, Some err)
      | None => (VSlice (Some slice), None)
      end.
Proof.
  intros Hne. cbn [convert].
  destruct (String.eqb value "") eqn:Heq; [|reflexivity].
  apply String.eqb_eq in Heq. contradiction.
Qed.

(** The element loop, when every part converts: the slice from [i] on is
    filled, in order, with the converted parts. *)
Lemma convertElements_ok conv z parts : forall i slice,
  length slice = i + length parts ->
  (forall k, i <= k -> k < i + length parts -> slice !! k = Some z) ->
  (forall part, part ∈ parts -> snd (conv z part) = None) ->
  convertElements conv i parts slice =
    (take i slice ++ ((fun part => fst (conv z part)) <$> parts), None).
Proof.
  induction parts as [|part parts IH]; intros i slice Hlen Hzero Hok.
  - cbn in *. rewrite app_nil_r, take_ge by lia. reflexivity.
  - cbn [convertElements fmap list_fmap]. cbn [length] in Hlen, Hzero.
    assert (Hi : slice !! i = Some z) by (apply Hzero; lia).
    rewrite (list_lookup_total_correct _ _ _ Hi).
    assert (Hpart : snd (conv z part) = None) by (apply Hok; left).
    destruct (conv z part) as [e err] eqn:Hconv. cbn in Hpart. subst err.
    rewrite IH.
    + rewrite (take_S_r _ _ e), take_insert_ge by
        (try lia; apply list_lookup_insert_eq; apply lookup_lt_Some in Hi; lia).
      rewrite <- app_assoc. reflexivity.
    + rewrite length_insert. lia.
    + intros k Hk1 Hk2. rewrite list_lookup_insert_ne by lia. apply Hzero; lia.
    + intros p Hp. apply Hok. right. exact Hp.
Qed.

(** The element loop, when a part fails after [pre] converted: the error
    carries the index of that part. *)
Lemma convertElements_fail conv z pre bad rest e err : forall i slice,
  length slice = i + length (pre ++ bad :: rest) ->
  (forall k, i <= k -> k < i + length (pre ++ bad :: rest) -> slice !! k = Some z) ->
  (forall part, part ∈ pre -> snd (conv z part) = None) ->
  conv z bad = (e, Some err) ->
  snd (convertElements conv i (pre ++ bad :: rest) slice) =
    Some (Wrap (MsgSliceElementIndex (i + length pre)) err).
Proof.
  induction pre as [|part pre IH]; intros i slice Hlen Hzero Hok Hbad.
  - cbn [app convertElements length].
    assert (Hi : slice !! i = Some z) by (apply Hzero; cbn; lia).
    rewrite (list_lookup_total_correct _ _ _ Hi), Hbad. cbn.
    rewrite Nat.add_0_r. reflexivity.
  - cbn [app convertElements]. cbn [app length] in Hlen, Hzero.
    assert (Hi : slice !! i = Some z) by (apply Hzero; lia).
    rewrite (list_lookup_total_correct _ _ _ Hi).
    assert (Hpart : snd (conv z part) = None) by (apply Hok; left).
    destruct (conv z part) as [e' err'] eqn:Hconv. cbn in Hpart. subst err'.
    rewrite IH.
    + cbn [length]. f_equal. f_equal. f_equal. lia.
    + rewrite length_insert. lia.
    + intros k Hk1 Hk2. rewrite list_lookup_insert_ne by lia. apply Hzero; lia.
    + intros p Hp. apply Hok. right. exact Hp.
    + exact Hbad.
Qed.

(** Either every part converts or there is a first one that does not. *)
Lemma first_failure (conv : string -> Value * option Error) parts :
  (forall part, part ∈ parts -> snd (conv part) = None)
  \/ exists pre bad rest e err,
       parts = pre ++ bad :: rest
       /\ (forall part, part ∈ pre -> snd (conv part) = None)
       /\ conv bad = (e, Some err).
Proof.
  induction parts as [|part parts IH].
  - left. intros p Hp. inversion Hp.
  - destruct (conv part) as [e [err|]] eqn:Hconv.
    + right. exists [], part, parts, e, err. repeat split; [|exact Hconv].
      intros p Hp. inversion Hp.
    + destruct IH as [IH | (pre & bad & rest & e' & err & -> & Hpre & Hbad)].
      * left. intros p Hp. apply elem_of_cons in Hp as [-> | Hp];
          [rewrite Hconv; reflexivity | apply IH, Hp].
      * right. exists (part :: pre), bad, rest, e', err. repeat split; [|exact Hbad].
        intros p Hp. apply elem_of_cons in Hp as [-> | Hp];
          [rewrite Hconv; reflexivity | apply Hpre, Hp].
Qed.

Lemma MakeSlice_lookup element n k :
  k < n -> MakeSlice element n !! k = Some (zero element).
Proof. intros Hk. unfold MakeSlice. apply lookup_replicate_2. exact Hk. Qed.

(** The slice case when every part converts. *)
Lemma convert_slice_ok E element field value :
  value <> "" -> Kind element <> Reflect.Slice ->
  (forall part, part ∈ GoStrings.Split value "," ->
     snd (convert E element (zero element) part) = None) ->
  convert E (TSlice element) field value =
    (VSlice (Some ((fun part => fst (convert E element (zero element) part))
                     <$> GoStrings.Split value ",")), None).
Proof.
  intros Hne Hkind Hok. rewrite convert_nonempty_slice by exact Hne.
  destruct (decide (Kind element = Reflect.Slice)) as [?|_]; [contradiction|].
  cbv zeta.
  rewrite (convertElements_ok (convert E element) (zero element)).
  - reflexivity.
  - unfold MakeSlice. rewrite length_replicate. reflexivity.
  - intros k _ Hk. apply MakeSlice_lookup. exact Hk.
  - exact Hok.
Qed.

(** The slice case when a part fails after [pre] converted. *)
Lemma convert_slice_fail E element field value pre bad rest e err :
  value <> "" -> Kind element <> Reflect.Slice ->
  GoStrings.Split value "," = pre ++ bad :: rest ->
  (forall part, part ∈ pre ->
     snd (convert E element (zero element) part) = None) ->
  convert E element (zero element) bad = (e, Some err) ->
  convert E (TSlice element) field value =
    (field, Some (Wrap (MsgSliceElementIndex (length pre)) err)).
Proof.
  intros Hne Hkind Hsplit Hpre Hbad. rewrite convert_nonempty_slice by exact Hne.
  destruct (decide (Kind element = Reflect.Slice)) as [?|_]; [contradiction|].
  cbv zeta. rewrite Hsplit.
  pose proof (convertElements_fail (convert E element) (zero element)
                pre bad rest e err 0
                (MakeSlice element (length (pre ++ bad :: rest)))) as Hfail.
  destruct (convertElements _ _ _ _) as [slice err'].
  cbn [snd] in Hfail. rewrite Hfail; [reflexivity| | |exact Hpre|exact Hbad].
  - unfold MakeSlice. rewrite length_replicate. reflexivity.
  - intros k _ Hk. apply MakeSlice_lookup. exact Hk.
Qed.

Lemma insert_lookup_total_id (l : list Value) i : <[i := l !!! i]> l = l.
Proof.
  destruct (decide (i < length l)) as [Hlt|Hge].
  - apply list_insert_id, list_lookup_lookup_total_lt, Hlt.
  - apply list_insert_ge. lia.
Qed.

(** A branch that extracted the empty string leaves the destination as the
    reset left it, and the loop goes on. *)
Lemma convertField_empty E field i msg s v :
  convertField E field i msg "" s v = (Continue, s, v).
Proof.
  unfold convertField. rewrite convert_empty, insert_lookup_total_id.
  reflexivity.
Qed.

(** C2.  An empty raw value never fails and leaves the field at its zero
    value: [convert] on the empty string returns no error and assigns
    nothing, whatever the target type; and when the value extracted for the
    field's source is empty, the loop body ends with the field as the reset
    left it, at the zero value of its type, and continues. *)
Theorem convert_empty_value E request field i s v src tag s' fieldType fieldValue :
  IsExported field = true ->
  selected field = Some (src, tag) ->
  extracted E request src tag s = Some ("", s') ->
  convert E fieldType fieldValue "" = (fieldValue, None)
  /\ fieldStep E request field i s v =
       (Continue, s', <[i := zero (Type_ field)]> v).
Proof.
  intros Hexp Hsel Hraw. split; [apply convert_empty|].
  rewrite fieldStep_selected, Hsel by exact Hexp.
  destruct src; cbn [bindFrom extracted] in *.
  - unfold bindForm.
    destruct (match PostForm s with
              | Some _ => (None, s)
              | None => ParseMultipartForm E (Z.shiftl 32 20) request s
              end) as [[err|] s1]; [discriminate|].
    injection Hraw as Hvalue ->. rewrite Hvalue.
    apply convertField_empty.
  - discriminate.
  - injection Hraw as Hvalue <-. unfold bindHeader.
    rewrite Hvalue. apply convertField_empty.
  - injection Hraw as Hvalue <-. unfold bindQuery.
    rewrite Hvalue. apply convertField_empty.
  - injection Hraw as Hvalue <-. unfold bindPath.
    rewrite Hvalue. apply convertField_empty.
Qed.

Lemma convert_empty_value_witness :
  convert sampleEnv TBool (VBool true) "" = (VBool true, None)
  /\ fieldStep sampleEnv (sampleRequest 0 []) pageField 0 (sampleStreams [])
       [VInt 5] =
       (Continue, sampleStreams [], <[0 := zero (Type_ pageField)]> [VInt 5]).
Proof.
  exact (convert_empty_value sampleEnv (sampleRequest 0 []) pageField 0
           (sampleStreams []) [VInt 5] SHeader "X-Page" (sampleStreams [])
           TBool (VBool true) eq_refl eq_refl eq_refl).
Defined.

Lemma Convert_source_precedence_witness :
  fieldStep sampleEnv (sampleRequest 0 [("X-Page", "7")]) pageField 0
    (sampleStreams []) [VInt 5] =
    bindFrom sampleEnv (sampleRequest 0 [("X-Page", "7")]) pageField 0
      SHeader "X-Page" (sampleStreams []) (<[0 := zero (Type_ pageField)]> [VInt 5])
  /\ (forall field',
        FieldName field' = FieldName pageField ->
        PkgPath field' = PkgPath pageField ->
        Type_ field' = Type_ pageField ->
        (forall src', rank src' <= rank SHeader ->
           Lookup (Tag field') (tagKey src') = Lookup (Tag pageField) (tagKey src')) ->
        fieldStep sampleEnv (sampleRequest 0 [("X-Page", "7")]) field' 0
          (sampleStreams []) [VInt 5] =
        fieldStep sampleEnv (sampleRequest 0 [("X-Page", "7")]) pageField 0
          (sampleStreams []) [VInt 5]).
Proof.
  exact (Convert_source_precedence sampleEnv (sampleRequest 0 [("X-Page", "7")])
           pageField 0 (sampleStreams []) [VInt 5] SHeader "X-Page"
           eq_refl eq_refl).
Defined.

(** The header wins over the query for [pageField]: the field is bound to
    the header's 7. *)
Example pageField_bound_from_header :
  fieldStep sampleEnv (sampleRequest 0 [("X-Page", "7")]) pageField 0
    (sampleStreams []) [VInt 5] = (Continue, sampleStreams [], [VInt 7]).
Proof. vm_compute. reflexivity. Qed.

(** C3.  A slice field: ["1,2,3"] against [[]int] gives [[1,2,3]]; the empty
    string assigns nothing, so the field stays the nil slice of the reset,
    of length 0.  For a non-empty input and an element type that is not a
    slice: when every part converts, the result is the slice of the
    converted parts in input order, as many as there are comma-separated
    parts; a successful result is always of that shape; and when a part
    fails after the ones before it converted, the field is left alone and
    the error carries the index of that part. *)
Theorem convert_slice E element field value :
  value <> "" ->
  Kind element <> Reflect.Slice ->
  let parts := GoStrings.Split value "," in
  let conv := convert E element (zero element) in
  convert E (TSlice (TInt KInt)) field "1,2,3" =
    (VSlice (Some [VInt 1; VInt 2; VInt 3]), None)
  /\ (convert E (TSlice element) (zero (TSlice element)) "" =
        (zero (TSlice element), None)
      /\ sliceLen (zero (TSlice element)) = 0)
  /\ ((forall part, part ∈ parts -> snd (conv part) = None) ->
      convert E (TSlice element) field value =
        (VSlice (Some ((fun part => fst (conv part)) <$> parts)), None))
  /\ (forall r, convert E (TSlice element) field value = (r, None) ->
        exists elems,
          r = VSlice (Some elems)
          /\ length elems = length parts
          /\ forall k part, parts !! k = Some part ->
               exists e, elems !! k = Some e /\ conv part = (e, None))
  /\ (forall k part e err,
        parts !! k = Some part ->
        conv part = (e, Some err) ->
        (forall j p, j < k -> parts !! j = Some p -> snd (conv p) = None) ->
        convert E (TSlice element) field value =
          (field, Some (Wrap (MsgSliceElementIndex k) err))).
Proof.
  intros Hne Hkind parts conv.
  split; [vm_compute; reflexivity|].
  split; [split; [apply convert_empty | reflexivity]|].
  split; [intros Hok; apply convert_slice_ok; assumption|].
  split.
  - intros r Hr.
    destruct (first_failure conv parts)
      as [Hok | (pre & bad & rest & e & err & Hsplit & Hpre & Hbad)].
    + rewrite (convert_slice_ok E element field value Hne Hkind Hok) in Hr.
      injection Hr as <-. eexists. split; [reflexivity|].
      split; [apply length_fmap|].
      intros k part Hk. exists (fst (conv part)).
      rewrite list_lookup_fmap. fold parts. rewrite Hk. split; [reflexivity|].
      assert (Hpart : snd (conv part) = None).
      { apply Hok. eapply list_elem_of_lookup_2. exact Hk. }
      destruct (conv part) as [e err]. cbn in *. subst err. reflexivity.
    + rewrite (convert_slice_fail E element field value pre bad rest e err
                 Hne Hkind Hsplit Hpre Hbad) in Hr.
      discriminate.
  - intros k part e err Hk Hbad Hbefore.
    assert (Hlt : k < length parts) by (eapply lookup_lt_Some; exact Hk).
    rewrite (convert_slice_fail E element field value (take k parts) part
               (drop (S k) parts) e err Hne Hkind).
    + rewrite length_take. do 4 f_equal. lia.
    + symmetry. apply take_drop_middle. exact Hk.
    + intros p Hp. apply elem_of_take in Hp as (j & Hj & Hjk).
      eapply Hbefore; eassumption.
    + exact Hbad.
Qed.

Lemma convert_slice_witness :
  convert sampleEnv (TSlice (TInt KInt)) (VSlice None) "1,x,3" =
    (VSlice None,
     Some (Wrap (MsgSliceElementIndex 1)
             (Wrap (MsgParseValue Reflect.Int)
                (NumError "ParseInt" "x" ErrSyntax)))).
Proof.
  destruct (convert_slice sampleEnv (TInt KInt) (VSlice None) "1,x,3")
    as (_ & _ & _ & _ & Hfail); [discriminate | discriminate |].
  apply (Hfail 1 "x" (VInt 0)); [reflexivity | reflexivity |].
  intros j p Hj Hp. destruct j as [|j]; [|lia].
  injection Hp as <-. reflexivity.
Defined.

(** Empty parts are elements too: they are left at the element's zero
    value. *)
Example convert_slice_empty_part E field :
  convert E (TSlice (TInt KInt)) field "1,,3" =
    (VSlice (Some [VInt 1; VInt 0; VInt 3]), None).
Proof. vm_compute. reflexivity. Qed.

(** C4, as the claim states it, fails on the empty string: a slice of
    slices is not rejected there, [convert] returns no error at all. *)
Lemma convert_slice_of_slice_counterexample :
  ~ (exists e,
       snd (convert sampleEnv (TSlice (TSlice (TInt KInt))) (VSlice None) "")
         = Some e
       /\ unsupportedType e = true).
Proof. intros (e & He & _). vm_compute in He. discriminate He. Qed.

(** C4, amended.  For every slice-of-slice target type and every non-empty
    input, [convert] fails with the same unsupported-type error, whatever
    the input, and leaves the field alone; on the empty input it returns no
    error, because the check for the empty string comes first. *)
Theorem convert_slice_of_slice E element field value :
  value <> "" ->
  convert E (TSlice (TSlice element)) field value =
    (field, Some (New (MsgSliceElementKind Reflect.Slice)))
  /\ unsupportedType (New (MsgSliceElementKind Reflect.Slice)) = true
  /\ convert E (TSlice (TSlice element)) field "" = (field, None).
Proof.
  intros Hne. split; [|split; [reflexivity | apply convert_empty]].
  rewrite convert_nonempty_slice by exact Hne. reflexivity.
Qed.

Lemma convert_slice_of_slice_witness :
  convert sampleEnv (TSlice (TSlice TString)) (VSlice None) "a,b" =
    (VSlice None, Some (New (MsgSliceElementKind Reflect.Slice)))
  /\ unsupportedType (New (MsgSliceElementKind Reflect.Slice)) = true
  /\ convert sampleEnv (TSlice (TSlice TString)) (VSlice None) "" =
       (VSlice None, None).
Proof.
  apply (convert_slice_of_slice sampleEnv TString (VSlice None) "a,b").
  discriminate.
Defined.

(** ** [convertBody] *)

Lemma convertBody_loop_spec E destinationType fields s v :
  convertBody_loop E destinationType fields s v =
    if existsb hasBodyTag fields then decodeOnce E destinationType s v
    else (None, s, v).
Proof.
  induction fields as [|field fields IH]; [reflexivity|].
  cbn [convertBody_loop existsb]. unfold hasBodyTag at 1.
  destruct (IsExported field); cbn [negb andb orb]; [|exact IH].
  destruct (Lookup (Tag field) "json") as [tag ok]. cbn [fst snd].
  destruct ok; cbn [negb andb orb]; [|exact IH].
  destruct (String.eqb tag "-"); cbn [negb orb]; [exact IH|].
  unfold decodeOnce. destruct (Decode E destinationType (Body s) v) as [[[err|] body] v'];
    reflexivity.
Qed.

Lemma convertBody_spec E request destinationType s v :
  convertBody E request destinationType s v =
    if bodyCondition request destinationType
    then decodeOnce E destinationType s v
    else (None, s, v).
Proof.
  unfold convertBody, bodyCondition, mediaType.
  destruct (ContentLength request =? 0)%Z; [reflexivity|]. cbn [negb andb].
  destruct (GoStrings.Cut (Header_Get request "Content-Type") ";") as [[base after] found].
  cbn [fst].
  destruct (String.eqb (GoStrings.TrimSpace base) "application/json");
    [|reflexivity].
  cbn [negb andb]. apply convertBody_loop_spec.
Qed.

(** C5, as the claim states it, fails when white space surrounds the media
    type: for [Content-Type: application/json ; charset=utf-8] the text
    before the [;] is not the JSON media type itself, yet the body is
    decoded (here: read to its end). *)
Lemma convertBody_counterexample :
  claimedBodyCondition
    (sampleRequest 2 [("Content-Type", "application/json ; charset=utf-8")])
    [nameField] = false
  /\ convertBody sampleEnv
       (sampleRequest 2 [("Content-Type", "application/json ; charset=utf-8")])
       [nameField] (sampleStreams emptyObject) [VString ""]
     <> (None, sampleStreams emptyObject, [VString ""]).
Proof. split; [reflexivity|]. vm_compute. discriminate. Qed.

(** C5, amended.  The JSON pass runs the decoder once on the body, into the
    destination, exactly when the declared length is not zero, the content
    type before any [;], with the white space around it removed, is
    [application/json], and an exported field carries a [json] tag other
    than ["-"]; otherwise it does nothing and leaves the body unread.  It
    comes before the loop over the fields, which starts from what the
    decoder left; a failure of the decoder ends [Convert] with the error,
    before any field is looked at. *)
Theorem convertBody_decodes_once E request destinationType s v :
  convertBody E request destinationType s v =
    (if bodyCondition request destinationType
     then decodeOnce E destinationType s v
     else (None, s, v))
  /\ Convert E (Some request) s (DestStruct destinationType v) =
      (if bodyCondition request destinationType
       then
         match decodeOnce E destinationType s v with
         | (Some err, s', v') =>
             (Some (Wrap MsgConvertBody err), s', DestStruct destinationType v')
         | (None, s', v') =>
             let '(err, s'', v'') := fieldsLoop E request destinationType 0 s' v' in
             (err, s'', DestStruct destinationType v'')
         end
       else
         let '(err, s', v') := fieldsLoop E request destinationType 0 s v in
         (err, s', DestStruct destinationType v')).
Proof.
  split; [apply convertBody_spec|].
  cbn [Convert]. rewrite convertBody_spec.
  destruct (bodyCondition request destinationType); [|reflexivity].
  destruct (decodeOnce E destinationType s v) as [[[err|] s'] v']; reflexivity.
Qed.

(** With the white space the decoder does run: the body is consumed. *)
Example convertBody_trims_media_type :
  convertBody sampleEnv
    (sampleRequest 2 [("Content-Type", "application/json ; charset=utf-8")])
    [nameField] (sampleStreams emptyObject) [VString ""]
  = (None, sampleStreams [], [VString ""]).
Proof. vm_compute. reflexivity. Qed.

(** ** The loop of [Convert] *)

Lemma onlyAt_refl i v : onlyAt i v v.
Proof. split; reflexivity. Qed.

Lemma onlyAt_insert i x v : onlyAt i v (<[i := x]> v).
Proof.
  split; [apply length_insert|].
  intros j Hj. apply list_lookup_insert_ne. congruence.
Qed.

Lemma onlyAt_trans i v1 v2 v3 : onlyAt i v1 v2 -> onlyAt i v2 v3 -> onlyAt i v1 v3.
Proof.
  intros [Hl1 H1] [Hl2 H2]. split; [congruence|].
  intros j Hj. rewrite H2, H1 by exact Hj. reflexivity.
Qed.

Create HintDb frame.
#[local] Hint Resolve onlyAt_refl onlyAt_insert : frame.

Lemma convertField_frame E field i msg value s v :
  onlyAt i v (snd (convertField E field i msg value s v)).
Proof.
  unfold convertField. repeat case_match; cbn [snd]; auto with frame.
Qed.

Lemma setFile_frame field i f v : onlyAt i v (setFile field i f v).
Proof. unfold setFile. case_match; auto with frame. Qed.

#[local] Hint Resolve convertField_frame setFile_frame : frame.

Lemma bindFrom_frame E request field i src tag s v :
  onlyAt i v (snd (bindFrom E request field i src tag s v)).
Proof.
  destruct src; cbn [bindFrom];
    unfold bindForm, bindFile, bindBinary, bindHeader, bindQuery, bindPath;
    repeat case_match; cbn [snd]; auto with frame.
Qed.

(** A pass through the loop body changes the field of its index and nothing
    else of the destination. *)
Lemma fieldStep_frame E request field i s v :
  onlyAt i v (snd (fieldStep E request field i s v)).
Proof.
  destruct (IsExported field) eqn:Hexp.
  - rewrite fieldStep_selected by exact Hexp.
    destruct (selected field) as [[src tag]|]; cbn [snd]; [|auto with frame].
    eapply onlyAt_trans; [apply onlyAt_insert | apply bindFrom_frame].
  - unfold fieldStep. rewrite Hexp. cbn. auto with frame.
Qed.

(** The fields the loop got past are the only ones it changed. *)
Lemma fieldsReach_frame E request fields : forall i s v s1 v1,
  fieldsReach E request fields i s v = Some (s1, v1) ->
  length v1 = length v
  /\ forall j, (j < i \/ i + length fields <= j) -> v1 !! j = v !! j.
Proof.
  induction fields as [|field fields IH]; intros i s v s1 v1 Hreach.
  - cbn in Hreach. injection Hreach as <- <-. split; reflexivity.
  - cbn [fieldsReach] in Hreach.
    pose proof (fieldStep_frame E request field i s v) as [Hlen Hother].
    destruct (fieldStep E request field i s v) as [[[|err] s2] v2];
      [|discriminate].
    cbn [snd] in Hlen, Hother.
    apply IH in Hreach as [Hlen1 Hother1]. split; [congruence|].
    intros j Hj. cbn [length] in Hj.
    rewrite Hother1, Hother by lia. reflexivity.
Qed.

(** Once the loop is past [pre], it goes on with the rest. *)
Lemma fieldsLoop_app E request pre rest : forall i s v s1 v1,
  fieldsReach E request pre i s v = Some (s1, v1) ->
  fieldsLoop E request (pre ++ rest) i s v =
    fieldsLoop E request rest (i + length pre) s1 v1.
Proof.
  induction pre as [|field pre IH]; intros i s v s1 v1 Hreach.
  - cbn in *. injection Hreach as <- <-. rewrite Nat.add_0_r. reflexivity.
  - cbn [fieldsReach] in Hreach. cbn [app fieldsLoop length].
    destruct (fieldStep E request field i s v) as [[[|err] s2] v2];
      [|discriminate].
    rewrite (IH _ _ _ _ _ Hreach). f_equal. lia.
Qed.

(** The two type checks pass for [File] and [*File] and for nothing else. *)
Lemma fileTypeError_spec field :
  fileTypeError field =
    if isFileType (Type_ field) then None
    else Some (New (MsgTypeNotSupported (Type_ field) (FieldName field))).
Proof.
  unfold fileTypeError, isFileType.
  destruct (Type_ field) as [ |[]|[]|[]|[]| |elem|elem| |[] name];
    try reflexivity.
  destruct elem; reflexivity.
Qed.

(** The reset comes first: what the field held before does not matter. *)
Lemma fieldStep_reset_first E request field i s v x :
  IsExported field = true ->
  fieldStep E request field i s (<[i := x]> v) = fieldStep E request field i s v.
Proof.
  intros Hexp. rewrite !fieldStep_selected by exact Hexp.
  rewrite list_insert_insert_eq. reflexivity.
Qed.

(** A field without a source tag is reset and nothing else. *)
Lemma fieldStep_untagged E request field i s v :
  IsExported field = true ->
  selected field = None ->
  fieldStep E request field i s v = (Continue, s, <[i := zero (Type_ field)]> v).
Proof.
  intros Hexp Hsel. rewrite fieldStep_selected, Hsel by exact Hexp. reflexivity.
Qed.

(** [Convert] on a struct, once the JSON pass is over without an error and
    the loop is past the fields [pre]: the rest of the loop decides. *)
Lemma Convert_reach E request pre rest s v s0 v0 s1 v1 :
  convertBody E request (pre ++ rest) s v = (None, s0, v0) ->
  fieldsReach E request pre 0 s0 v0 = Some (s1, v1) ->
  Convert E (Some request) s (DestStruct (pre ++ rest) v) =
    let '(err, s2, v2) := fieldsLoop E request rest (length pre) s1 v1 in
    (err, s2, DestStruct (pre ++ rest) v2).
Proof.
  intros Hbody Hreach. cbn [Convert]. rewrite Hbody.
  rewrite (fieldsLoop_app _ _ _ _ _ _ _ _ _ Hreach). reflexivity.
Qed.

(** C6: the code at the input where the claim fails.  [Upload] is a
    [file:"binary"] field, [Count] an untagged [int] the caller set to 7, and
    the request declares no body.  [Convert] succeeds, and [Count] is still
    7: the [return nil] of the binary branch ends the loop before [Count] is
    reset. *)
Theorem Convert_early_return_keeps_default :
  Convert sampleEnv (Some (sampleRequest 0 [])) (sampleStreams [])
    (DestStruct [uploadField; countField] [VFile (mkFile "" 0 None); VInt 7])
  = (None, sampleStreams [],
     DestStruct [uploadField; countField] [VFile (mkFile "" 0 None); VInt 7]).
Proof. vm_compute. reflexivity. Qed.

(** With a body declared, the same destination has [Count] reset. *)
Example Convert_resets_untagged_field :
  Convert sampleEnv (Some (sampleRequest 5 [])) (sampleStreams [])
    (DestStruct [uploadField; countField] [VFile (mkFile "" 0 None); VInt 7])
  = (None, sampleStreams [],
     DestStruct [uploadField; countField] [VFile (mkFile "" 0 None); VInt 0]).
Proof. vm_compute. reflexivity. Qed.

(** When the loop gets past every field, each exported field without a
    source tag ends at its zero value. *)
Lemma fieldsReach_untagged_zero E request fields : forall i s v s1 v1 k field,
  fieldsReach E request fields i s v = Some (s1, v1) ->
  fields !! k = Some field ->
  IsExported field = true ->
  selected field = None ->
  i + k < length v ->
  v1 !! (i + k) = Some (zero (Type_ field)).
Proof.
  induction fields as [|f fields IH]; intros i s v s1 v1 k field Hreach Hk Hexp Hsel Hlt.
  - discriminate.
  - cbn [fieldsReach] in Hreach. destruct k as [|k].
    + injection Hk as ->. rewrite fieldStep_untagged in Hreach by assumption.
      apply fieldsReach_frame in Hreach as [_ Hother].
      rewrite Nat.add_0_r in *. rewrite Hother by lia.
      apply list_lookup_insert_eq. exact Hlt.
    + cbn in Hk.
      pose proof (fieldStep_frame E request f i s v) as [Hlen _].
      destruct (fieldStep E request f i s v) as [[[|err] s2] v2];
        [|discriminate].
      cbn [snd] in Hlen.
      replace (i + S k) with (S i + k) by lia.
      eapply IH; try eassumption. lia.
Qed.

(** C7.  A [File] or [*File] field bound from a named file tag, in a
    multipart request that has no part of that name ([FormFile] reports
    [ErrMissingFile]): the loop body leaves the field at the zero value of
    the reset and continues, so the loop goes on with the remaining fields
    and no error comes from this one. *)
Theorem Convert_missing_file E request field fields i s v tag e s' :
  IsExported field = true ->
  selected field = Some (SFile, tag) ->
  tag <> "binary" ->
  isFileType (Type_ field) = true ->
  GoStrings.TrimSpace (mediaType request) = "multipart/form-data" ->
  FormFile E tag request s = (inl e, s') ->
  errors_Is e ErrMissingFile = true ->
  fieldStep E request field i s v =
    (Continue, s', <[i := zero (Type_ field)]> v)
  /\ fieldsLoop E request (field :: fields) i s v =
      fieldsLoop E request fields (S i) s' (<[i := zero (Type_ field)]> v).
Proof.
  intros Hexp Hsel Htag Htype Hmedia Hfile Hmissing.
  assert (Hstep : fieldStep E request field i s v =
                  (Continue, s', <[i := zero (Type_ field)]> v)).
  { rewrite fieldStep_selected, Hsel by exact Hexp. cbn [bindFrom].
    destruct (String.eqb tag "binary") eqn:Hbin;
      [apply String.eqb_eq in Hbin; contradiction|].
    unfold bindFile. rewrite fileTypeError_spec, Htype.
    unfold mediaType in Hmedia.
    destruct (GoStrings.Cut (Header_Get request "Content-Type") ";")
      as [[base after] found].
    cbn [fst] in Hmedia. rewrite Hmedia.
    change (String.eqb "multipart/form-data" "multipart/form-data") with true.
    cbn [negb].
    rewrite Hfile, Hmissing. reflexivity. }
  split; [exact Hstep|]. cbn [fieldsLoop]. rewrite Hstep. reflexivity.
Qed.

Lemma Convert_missing_file_witness :
  fieldStep sampleEnv
    (sampleRequest 120 [("Content-Type", "multipart/form-data; boundary=x")])
    avatarField 0 (sampleStreams []) [VFilePtr (Some (mkFile "old" 3 None)); VInt 7]
  = (Continue, sampleStreams [],
     <[0 := zero (Type_ avatarField)]> [VFilePtr (Some (mkFile "old" 3 None)); VInt 7])
  /\ fieldsLoop sampleEnv
      (sampleRequest 120 [("Content-Type", "multipart/form-data; boundary=x")])
      [avatarField; countField] 0 (sampleStreams [])
      [VFilePtr (Some (mkFile "old" 3 None)); VInt 7]
    = fieldsLoop sampleEnv
      (sampleRequest 120 [("Content-Type", "multipart/form-data; boundary=x")])
      [countField] 1 (sampleStreams [])
      (<[0 := zero (Type_ avatarField)]> [VFilePtr (Some (mkFile "old" 3 None)); VInt 7]).
Proof.
  apply (Convert_missing_file sampleEnv
           (sampleRequest 120 [("Content-Type", "multipart/form-data; boundary=x")])
           avatarField [countField] 0 (sampleStreams [])
           [VFilePtr (Some (mkFile "old" 3 None)); VInt 7]
           "avatar" ErrMissingFile (sampleStreams []));
    first [reflexivity | discriminate].
Defined.

(** The binary branch on a request without a body, and the loop body that
    reaches it. *)
Lemma bindBinary_empty_body E request field i s v :
  isFileType (Type_ field) = true ->
  ContentLength request = 0%Z ->
  bindBinary E request field i "binary" s v = (Return None, s, v).
Proof.
  intros Htype Hlen. unfold bindBinary.
  rewrite fileTypeError_spec, Htype, Hlen. reflexivity.
Qed.

Lemma fieldStep_binary_empty_body E request field i s v :
  IsExported field = true ->
  selected field = Some (SFile, "binary") ->
  isFileType (Type_ field) = true ->
  ContentLength request = 0%Z ->
  fieldStep E request field i s v =
    (Return None, s, <[i := zero (Type_ field)]> v).
Proof.
  intros Hexp Hsel Htype Hlen.
  rewrite fieldStep_selected, Hsel by exact Hexp. cbn [bindFrom String.eqb].
  apply bindBinary_empty_body; assumption.
Qed.

(** C8.  A [File] or [*File] field bound from [file:"binary"], on a request
    whose declared length is zero: the binary branch returns [nil] from
    [Convert] and touches nothing, so the field keeps what it held when the
    branch was reached, the zero value of the reset. *)
Theorem Convert_binary_empty_body E request field fields i s v :
  IsExported field = true ->
  selected field = Some (SFile, "binary") ->
  isFileType (Type_ field) = true ->
  ContentLength request = 0%Z ->
  (forall v', bindBinary E request field i "binary" s v' = (Return None, s, v'))
  /\ fieldStep E request field i s v =
      (Return None, s, <[i := zero (Type_ field)]> v)
  /\ fieldsLoop E request (field :: fields) i s v =
      (None, s, <[i := zero (Type_ field)]> v).
Proof.
  intros Hexp Hsel Htype Hlen.
  split; [intros v'; apply bindBinary_empty_body; assumption|].
  split; [apply fieldStep_binary_empty_body; assumption|].
  cbn [fieldsLoop].
  rewrite fieldStep_binary_empty_body by assumption. reflexivity.
Qed.

Lemma Convert_binary_empty_body_witness :
  (forall v', bindBinary sampleEnv (sampleRequest 0 []) uploadField 0 "binary"
                (sampleStreams []) v' = (Return None, sampleStreams [], v'))
  /\ fieldStep sampleEnv (sampleRequest 0 []) uploadField 0 (sampleStreams [])
      [VFile (mkFile "old" 3 None)]
    = (Return None, sampleStreams [],
       <[0 := zero (Type_ uploadField)]> [VFile (mkFile "old" 3 None)])
  /\ fieldsLoop sampleEnv (sampleRequest 0 []) [uploadField; countField] 0
      (sampleStreams []) [VFile (mkFile "old" 3 None)]
    = (None, sampleStreams [],
       <[0 := zero (Type_ uploadField)]> [VFile (mkFile "old" 3 None)]).
Proof.
  apply (Convert_binary_empty_body sampleEnv (sampleRequest 0 []) uploadField
           [countField] 0 (sampleStreams []) [VFile (mkFile "old" 3 None)]);
    reflexivity.
Defined.

Lemma convertBody_empty_body E request destinationType s v :
  ContentLength request = 0%Z ->
  convertBody E request destinationType s v = (None, s, v).
Proof. intros Hlen. unfold convertBody. rewrite Hlen. reflexivity. Qed.

(** C9.  When the loop reaches a field bound from [file:"binary"] on a
    request whose declared length is zero, [Convert] returns [nil] there:
    the streams are as they were when the field was reached, and every
    field declared after it holds what the caller passed in, neither reset
    nor bound. *)
Theorem Convert_binary_empty_body_skips_rest E request pre field rest s v s1 v1 :
  ContentLength request = 0%Z ->
  fieldsReach E request pre 0 s v = Some (s1, v1) ->
  IsExported field = true ->
  selected field = Some (SFile, "binary") ->
  isFileType (Type_ field) = true ->
  Convert E (Some request) s (DestStruct (pre ++ field :: rest) v) =
    (None, s1,
     DestStruct (pre ++ field :: rest) (<[length pre := zero (Type_ field)]> v1))
  /\ (forall j, length pre < j ->
        <[length pre := zero (Type_ field)]> v1 !! j = v !! j).
Proof.
  intros Hlen Hreach Hexp Hsel Htype. split.
  - rewrite (Convert_reach E request pre (field :: rest) s v s v s1 v1
               (convertBody_empty_body _ _ _ _ _ Hlen) Hreach).
    cbn [fieldsLoop].
    rewrite fieldStep_binary_empty_body by assumption. reflexivity.
  - intros j Hj. rewrite list_lookup_insert_ne by lia.
    apply fieldsReach_frame in Hreach as [_ Hother]. apply Hother. lia.
Qed.

Lemma Convert_binary_empty_body_skips_rest_witness :
  Convert sampleEnv (Some (sampleRequest 0 [("X-Page", "3")])) (sampleStreams [])
    (DestStruct ([pageField] ++ uploadField :: [countField; idsField])
       [VInt 9; VFile (mkFile "old" 3 None); VInt 7; VSlice (Some [VInt 1])])
  = (None, sampleStreams [],
     DestStruct ([pageField] ++ uploadField :: [countField; idsField])
       (<[length [pageField] := zero (Type_ uploadField)]>
          [VInt 3; VFile (mkFile "old" 3 None); VInt 7; VSlice (Some [VInt 1])]))
  /\ (forall j, length [pageField] < j ->
        <[length [pageField] := zero (Type_ uploadField)]>
          [VInt 3; VFile (mkFile "old" 3 None); VInt 7; VSlice (Some [VInt 1])] !! j
        = [VInt 9; VFile (mkFile "old" 3 None); VInt 7; VSlice (Some [VInt 1])] !! j).
Proof.
  apply (Convert_binary_empty_body_skips_rest sampleEnv
           (sampleRequest 0 [("X-Page", "3")]) [pageField] uploadField
           [countField; idsField] (sampleStreams [])
           [VInt 9; VFile (mkFile "old" 3 None); VInt 7; VSlice (Some [VInt 1])]
           (sampleStreams [])
           [VInt 3; VFile (mkFile "old" 3 None); VInt 7; VSlice (Some [VInt 1])]);
    reflexivity.
Defined.



(** ** The earlier variant: where it differs *)

(** There the empty string makes [convert] itself reset the field. *)
Lemma earlier_convert_empty E fieldType field :
  Earlier.convert E fieldType field "" = (zero fieldType, None).
Proof. destruct fieldType; reflexivity. Qed.

(** There a field without a source tag keeps what the caller put in it. *)
Lemma earlier_untagged_field_kept E request field i s v :
  selected field = None ->
  present (Lookup (Tag field) "raw") = false ->
  Earlier.fieldStep E request field i s v = (Continue, s, v).
Proof.
  intros Hsel Hraw. rewrite selected_cascade in Hsel. unfold Earlier.fieldStep.
  destruct (negb (IsExported field)); [reflexivity|].
  destruct (negb (CanSet field)); [reflexivity|].
  destruct (present (Lookup (Tag field) "form")); [discriminate|].
  destruct (present (Lookup (Tag field) "file")); [discriminate|].
  rewrite Hraw.
  destruct (present (Lookup (Tag field) "header")); [discriminate|].
  destruct (present (Lookup (Tag field) "query")); [discriminate|].
  destruct (present (Lookup (Tag field) "path")); [discriminate|reflexivity].
Qed.

(** There a missing multipart file ends the bind with an error. *)
Example earlier_missing_file_is_error :
  Earlier.Convert sampleEnv
    (Some (sampleRequest 120 [("Content-Type", "multipart/form-data; boundary=x")]))
    (sampleStreams []) (DestStruct [avatarField; countField] [VFilePtr None; VInt 7])
  = (Some (Wrap (MsgGetFormFile "avatar" "Avatar") ErrMissingFile),
     sampleStreams [],
     DestStruct [avatarField; countField] [VFilePtr None; VInt 7]).
Proof. vm_compute. reflexivity. Qed.

(** * Further properties of the code *)

(** ** [convert]: errors and types *)

(** X1.  When [convert] returns an error it has not touched the field. *)
Theorem convert_error_keeps_field E fieldType field value err :
  snd (convert E fieldType field value) = Some err ->
  fst (convert E fieldType field value) = field.
Proof.
  destruct fieldType as [ |k|k|k|k| |element|element| |k name];
    cbn [convert]; destruct (String.eqb value ""); cbn [fst snd];
    try discriminate; try reflexivity.
  1-5: repeat case_match; unfold parsed; repeat case_match; cbn [fst snd];
       intros; try discriminate; reflexivity.
  repeat case_match; cbn [fst snd]; intros; try discriminate; reflexivity.
Qed.

Lemma convert_error_keeps_field_witness :
  fst (convert sampleEnv (TInt KInt8) (VInt 5) "300") = VInt 5.
Proof.
  apply (convert_error_keeps_field sampleEnv (TInt KInt8) (VInt 5) "300"
           (Wrap (MsgParseValue Reflect.Int8) (Strconv.rangeError "ParseInt" "300"))).
  reflexivity.
Defined.

Lemma parseDigits_bounds s0 maxVal s : forall n r err,
  (0 <= n <= maxVal)%Z ->
  Strconv.parseDigits s0 maxVal s n = (r, err) ->
  (0 <= r)%Z /\ (err = None -> (r <= maxVal)%Z).
Proof.
  induction s as [|c rest IH]; intros n r err Hn Hparse; cbn [Strconv.parseDigits] in Hparse.
  - injection Hparse as <- <-. split; [lia | intros _; lia].
  - cbv zeta in Hparse.
    destruct (negb _) in Hparse.
    { injection Hparse as <- <-. split; [lia | discriminate]. }
    destruct (_ <=? n)%Z in Hparse.
    { injection Hparse as <- <-. split; [lia | discriminate]. }
    destruct (_ || _) eqn:Hcheck in Hparse.
    { injection Hparse as <- <-. split; [lia | discriminate]. }
    apply orb_false_iff in Hcheck as [_ Hmax]. apply Z.ltb_ge in Hmax.
    eapply IH; [|exact Hparse]. split; [|exact Hmax].
    apply Z.mod_pos_bound. lia.
Qed.

(** [ParseUint] without an error gives a value of the width asked for. *)
Lemma ParseUint_fits s bitSize r :
  (0 < bitSize)%Z ->
  Strconv.ParseUint s bitSize = (r, None) ->
  (0 <= r < 2 ^ bitSize)%Z.
Proof.
  intros Hbits. unfold Strconv.ParseUint.
  destruct (String.eqb s ""); [discriminate|].
  destruct (bitSize =? 0)%Z eqn:Hz; [apply Z.eqb_eq in Hz; lia|].
  intros Hparse. apply parseDigits_bounds in Hparse as [Hlo Hhi].
  - specialize (Hhi eq_refl). lia.
  - assert (0 < 2 ^ bitSize)%Z by (apply Z.pow_pos_nonneg; lia). lia.
Qed.

(** [ParseInt] without an error gives a value of the width asked for. *)
Lemma ParseInt_fits s bitSize r :
  (0 < bitSize)%Z ->
  Strconv.ParseInt s bitSize = (r, None) ->
  (- 2 ^ (bitSize - 1) <= r < 2 ^ (bitSize - 1))%Z.
Proof.
  intros Hbits. unfold Strconv.ParseInt.
  destruct s as [|c rest]; [discriminate|].
  destruct (if Ascii.eqb c "+" then (false, rest)
            else if Ascii.eqb c "-" then (true, rest)
            else (false, String c rest)) as [neg digits].
  destruct (Strconv.ParseUint digits bitSize) as [un err] eqn:Hun.
  assert (Hpos : (0 <= un)%Z).
  { unfold Strconv.ParseUint in Hun.
    destruct (String.eqb digits ""); [injection Hun as <- _; lia|].
    apply parseDigits_bounds in Hun as [Hlo _]; [exact Hlo|].
    destruct (bitSize =? 0)%Z;
      [assert (0 < 2 ^ IntSize)%Z by (apply Z.pow_pos_nonneg; unfold IntSize; lia)
      |assert (0 < 2 ^ bitSize)%Z by (apply Z.pow_pos_nonneg; lia)]; lia. }
  destruct (Strconv.otherThanRange err); [discriminate|].
  destruct (bitSize =? 0)%Z eqn:Hz; [apply Z.eqb_eq in Hz; lia|].
  destruct (negb neg && (2 ^ (bitSize - 1) <=? un)%Z) eqn:H1; [discriminate|].
  destruct (neg && (2 ^ (bitSize - 1) <? un)%Z) eqn:H2; [discriminate|].
  intros Hr. injection Hr as <-.
  destruct neg; cbn [negb andb] in H1, H2.
  - apply Z.ltb_ge in H2. lia.
  - apply Z.leb_gt in H1.
    assert (0 < 2 ^ (bitSize - 1))%Z by (apply Z.pow_pos_nonneg; lia). lia.
Qed.

Lemma Bits_int_positive k : (0 < Bits (TInt k))%Z.
Proof. destruct k; reflexivity. Qed.

Lemma Bits_uint_positive k : (0 < Bits (TUint k))%Z.
Proof. destruct k; reflexivity. Qed.

Lemma zero_hasType t : hasType t (zero t).
Proof.
  destruct t as [ |k|k|k|k| |element|element| |k name]; cbn; try exact I.
  - assert (0 < 2 ^ (Bits (TInt k) - 1))%Z
      by (apply Z.pow_pos_nonneg; destruct k; cbn; unfold IntSize; lia).
    change (match k with
            | KInt => IntSize | KInt8 => 8 | KInt16 => 16
            | KInt32 => 32 | KInt64 => 64
            end)%Z with (Bits (TInt k)). lia.
  - assert (0 < 2 ^ Bits (TUint k))%Z
      by (apply Z.pow_pos_nonneg; destruct k; cbn; unfold IntSize; lia).
    change (match k with
            | KUint | KUintptr => IntSize | KUint8 => 8 | KUint16 => 16
            | KUint32 => 32 | KUint64 => 64
            end)%Z with (Bits (TUint k)). lia.
  - destruct element; exact I.
Qed.

(** The element loop keeps what [conv] keeps. *)
Lemma convertElements_Forall (P : Value -> Prop) conv parts : forall i slice,
  (forall x part, P x -> P (fst (conv x part))) ->
  Forall P slice ->
  Forall P (fst (convertElements conv i parts slice)).
Proof.
  induction parts as [|part parts IH]; intros i slice Hconv Hslice;
    cbn [convertElements]; [exact Hslice|].
  destruct (conv (slice !!! i) part) as [e err] eqn:Hpart.
  assert (Hnext : Forall P (<[i := e]> slice)).
  { destruct (decide (i < length slice)) as [Hlt|Hge].
    - apply Forall_insert; [exact Hslice|].
      replace e with (fst (conv (slice !!! i) part)) by (rewrite Hpart; reflexivity).
      apply Hconv. eapply Forall_lookup_1; [exact Hslice|].
      apply list_lookup_lookup_total_lt. exact Hlt.
    - rewrite list_insert_ge by lia. exact Hslice. }
  destruct err; cbn [fst]; [exact Hnext|]. apply IH; assumption.
Qed.

(** X2.  [convert] keeps the field well typed: whatever the raw string, the
    field afterwards holds a value of its type; an integer it stored fits
    the width of the field, and the elements of a slice it stored are of
    the element type. *)
Theorem convert_preserves_type E fieldType : forall field value,
  hasType fieldType field ->
  hasType fieldType (fst (convert E fieldType field value)).
Proof.
  induction fieldType as [ |k|k|k|k| |element IH|element IHp| |k name];
    intros field value Htyped; cbn [convert];
    destruct (String.eqb value ""); cbn [fst]; try exact Htyped.
  - destruct (Strconv.ParseBool value) as [b [err|]]; cbn; [exact Htyped|exact I].
  - destruct (Strconv.ParseInt value (Bits (TInt k))) as [n [err|]] eqn:Hparse;
      cbn [parsed fst]; [exact Htyped|].
    apply ParseInt_fits in Hparse; [exact Hparse|apply Bits_int_positive].
  - destruct (Strconv.ParseUint value (Bits (TUint k))) as [n [err|]] eqn:Hparse;
      cbn [parsed fst]; [exact Htyped|].
    apply ParseUint_fits in Hparse; [exact Hparse|apply Bits_uint_positive].
  - destruct (ParseFloat E value (Bits (TFloat k))) as [x [err|]]; cbn;
      [exact Htyped|exact I].
  - destruct (ParseComplex E value (Bits (TComplex k))) as [x [err|]]; cbn;
      [exact Htyped|exact I].
  - exact I.
  - destruct (decide (Kind element = Reflect.Slice)); cbn [fst]; [exact Htyped|].
    pose proof (convertElements_Forall (hasType element) (convert E element)
                  (GoStrings.Split value ",") 0
                  (MakeSlice element (length (GoStrings.Split value ",")))) as Hall.
    destruct (convertElements _ _ _ _) as [slice [err|]]; cbn [fst] in *;
      [exact Htyped|].
    cbn [hasType]. apply Hall.
    + intros x part Hx. apply IH. exact Hx.
    + unfold MakeSlice. apply Forall_replicate. apply zero_hasType.
Qed.

Lemma convert_preserves_type_witness :
  hasType (TInt KInt8) (fst (convert sampleEnv (TInt KInt8) (VInt 5) "-128")).
Proof.
  apply (convert_preserves_type sampleEnv (TInt KInt8) (VInt 5) "-128").
  cbn. lia.
Defined.

(** ** The loop keeps the destination well typed *)

Lemma typed_insert destinationType v i field x :
  typed destinationType v ->
  destinationType !! i = Some field ->
  hasType (Type_ field) x ->
  typed destinationType (<[i := x]> v).
Proof.
  intros Htyped Hfield Hx. unfold typed.
  rewrite <- (list_insert_id destinationType i field Hfield).
  apply Forall2_insert; assumption.
Qed.

Lemma typed_lookup destinationType v i field :
  typed destinationType v ->
  destinationType !! i = Some field ->
  hasType (Type_ field) (v !!! i).
Proof.
  intros Htyped Hfield.
  destruct (Forall2_lookup_l _ _ _ _ _ Htyped Hfield) as (x & Hx & Hty).
  rewrite (list_lookup_total_correct _ _ _ Hx). exact Hty.
Qed.

Lemma convertField_typed E destinationType field i msg value s v :
  typed destinationType v ->
  destinationType !! i = Some field ->
  typed destinationType (snd (convertField E field i msg value s v)).
Proof.
  intros Htyped Hfield. unfold convertField.
  pose proof (convert_preserves_type E (Type_ field) (v !!! i) value
                (typed_lookup _ _ _ _ Htyped Hfield)) as Hconv.
  destruct (convert E (Type_ field) (v !!! i) value) as [fieldValue [err|]];
    cbn [fst snd] in *; eapply typed_insert; eassumption.
Qed.

Lemma setFile_typed destinationType field i f v :
  typed destinationType v ->
  destinationType !! i = Some field ->
  fileTypeError field = None ->
  typed destinationType (setFile field i f v).
Proof.
  intros Htyped Hfield Hcheck. rewrite fileTypeError_spec in Hcheck.
  unfold setFile, isFileType in *.
  destruct (bool_decide (Type_ field = TFile)) eqn:Hfile.
  - apply bool_decide_eq_true in Hfile.
    replace (bool_decide (Kind (Type_ field) = Reflect.Pointer)) with false
      by (rewrite Hfile; reflexivity).
    eapply typed_insert; [exact Htyped|exact Hfield|].
    rewrite Hfile. cbn. exact I.
  - destruct (bool_decide (Type_ field = TPointer TFile)) eqn:Hptr;
      [|discriminate].
    apply bool_decide_eq_true in Hptr.
    replace (bool_decide (Kind (Type_ field) = Reflect.Pointer)) with true
      by (rewrite Hptr; reflexivity).
    eapply typed_insert; [exact Htyped|exact Hfield|].
    rewrite Hptr. cbn. exact I.
Qed.

Lemma bindFrom_typed E request destinationType field i src tag s v :
  typed destinationType v ->
  destinationType !! i = Some field ->
  typed destinationType (snd (bindFrom E request field i src tag s v)).
Proof.
  intros Htyped Hfield.
  destruct src; cbn [bindFrom];
    unfold bindForm, bindFile, bindBinary, bindHeader, bindQuery, bindPath;
    repeat case_match; cbn [snd];
    first [ exact Htyped
          | apply convertField_typed; assumption
          | apply setFile_typed; assumption ].
Qed.

Lemma fieldStep_typed E request destinationType field i s v :
  typed destinationType v ->
  destinationType !! i = Some field ->
  typed destinationType (snd (fieldStep E request field i s v)).
Proof.
  intros Htyped Hfield. destruct (IsExported field) eqn:Hexp.
  - rewrite fieldStep_selected by exact Hexp.
    assert (Hreset : typed destinationType (<[i := zero (Type_ field)]> v))
      by (eapply typed_insert; [exact Htyped|exact Hfield|apply zero_hasType]).
    destruct (selected field) as [[src tag]|]; cbn [snd]; [|exact Hreset].
    apply bindFrom_typed; assumption.
  - unfold fieldStep. rewrite Hexp. exact Htyped.
Qed.

Lemma fieldsLoop_typed_from E request destinationType fields : forall i s v,
  (forall k field, fields !! k = Some field ->
     destinationType !! (i + k) = Some field) ->
  typed destinationType v ->
  typed destinationType (snd (fieldsLoop E request fields i s v)).
Proof.
  induction fields as [|field fields IH]; intros i s v Hfields Htyped;
    cbn [fieldsLoop]; [exact Htyped|].
  pose proof (fieldStep_typed E request destinationType field i s v Htyped) as Hstep.
  destruct (fieldStep E request field i s v) as [[[|err] s'] v']; cbn [snd] in *.
  - apply IH.
    + intros k f Hk. replace (S i + k) with (i + S k) by lia.
      apply Hfields. exact Hk.
    + apply Hstep. rewrite <- (Nat.add_0_r i). apply Hfields. reflexivity.
  - apply Hstep. rewrite <- (Nat.add_0_r i). apply Hfields. reflexivity.
Qed.

(** X3.  The loop of [Convert] keeps the destination well typed: if every
    field holds a value of its type before, every field does afterwards,
    whether the loop ran to its end, returned early or failed. *)
Theorem fieldsLoop_preserves_types E request destinationType s v :
  typed destinationType v ->
  typed destinationType (snd (fieldsLoop E request destinationType 0 s v)).
Proof.
  intros Htyped. apply fieldsLoop_typed_from; [|exact Htyped].
  intros k field Hk. exact Hk.
Qed.

Lemma fieldsLoop_preserves_types_witness :
  typed [pageField; idsField]
    (snd (fieldsLoop sampleEnv (sampleRequest 0 [("X-Page", "300")])
            [pageField; idsField] 0 (sampleStreams [])
            [VInt 5; VSlice (Some [VInt 1])])).
Proof.
  apply (fieldsLoop_preserves_types sampleEnv (sampleRequest 0 [("X-Page", "300")])
           [pageField; idsField] (sampleStreams [])
           [VInt 5; VSlice (Some [VInt 1])]).
  repeat constructor; cbn; unfold IntSize; lia.
Defined.

(** ** [convert]: decimal strings into integer fields *)

Lemma decimalFrom_ge s : forall n,
  allDigits s = true -> (0 <= n)%Z -> (n <= decimalFrom s n)%Z.
Proof.
  induction s as [|c rest IH]; intros n Hdigits Hn; cbn [decimalFrom]; [lia|].
  cbn [allDigits] in Hdigits. apply andb_prop in Hdigits as [Hc Hrest].
  unfold isDigit in Hc. apply andb_prop in Hc as [Hlo Hhi].
  apply Z.leb_le in Hlo, Hhi.
  specialize (IH (n * 10 + (Z.of_nat (nat_of_ascii c) - 48))%Z Hrest). lia.
Qed.

(** The digit loop of [ParseUint] on decimal digits: the number they denote
    if it is at most [maxVal], the range error otherwise. *)
Lemma parseDigits_decimal s0 maxVal s : forall n,
  allDigits s = true ->
  (0 <= n <= maxVal)%Z ->
  (maxVal <= Strconv.maxUint64)%Z ->
  Strconv.parseDigits s0 maxVal s n =
    if (decimalFrom s n <=? maxVal)%Z then (decimalFrom s n, None)
    else (maxVal, Some (Strconv.rangeError "ParseUint" s0)).
Proof.
  assert (Hcut : (Strconv.maxUint64 / 10 + 1 = 1844674407370955162)%Z)
    by reflexivity.
  assert (Hmax : (Strconv.maxUint64 = 18446744073709551615)%Z) by reflexivity.
  assert (Hpow : (2 ^ 64 = 18446744073709551616)%Z) by reflexivity.
  induction s as [|c rest IH]; intros n Hdigits Hn Hbound;
    cbn [Strconv.parseDigits decimalFrom].
  - destruct (Z.leb_spec n maxVal); [reflexivity|lia].
  - cbn [allDigits] in Hdigits. apply andb_prop in Hdigits as [Hc Hrest].
    cbv zeta. unfold isDigit in Hc. rewrite Hc. cbn [negb].
    apply andb_prop in Hc as [Hlo Hhi]. apply Z.leb_le in Hlo, Hhi.
    set (d := (Z.of_nat (nat_of_ascii c) - 48)%Z) in *.
    assert (Hd : (0 <= d <= 9)%Z) by (subst d; lia).
    pose proof (decimalFrom_ge rest (n * 10 + d)%Z Hrest ltac:(lia)) as Hge.
    rewrite Hcut, Hpow.
    destruct (Z.leb_spec 1844674407370955162 n) as [Hbig|Hsmall].
    { destruct (Z.leb_spec (decimalFrom rest (n * 10 + d)) maxVal); [lia|reflexivity]. }
    destruct (Z_lt_le_dec (n * 10 + d) 18446744073709551616) as [Hfit|Hwrap].
    + rewrite Z.mod_small by lia.
      destruct (Z.ltb_spec (n * 10 + d) (n * 10)); [lia|]. cbn [orb].
      destruct (Z.ltb_spec maxVal (n * 10 + d)) as [Hover|Hok].
      * destruct (Z.leb_spec (decimalFrom rest (n * 10 + d)) maxVal); [lia|reflexivity].
      * apply IH; [exact Hrest|lia|exact Hbound].
    + replace (n * 10 + d)%Z
        with ((n * 10 + d - 18446744073709551616) + 1 * 18446744073709551616)%Z
        by lia.
      rewrite Z_mod_plus_full, Z.mod_small by lia.
      replace (n * 10 + d - 18446744073709551616 + 1 * 18446744073709551616)%Z
        with (n * 10 + d)%Z by lia.
      destruct (Z.ltb_spec (n * 10 + d - 18446744073709551616) (n * 10)); [|lia].
      cbn [orb].
      destruct (Z.leb_spec (decimalFrom rest (n * 10 + d)) maxVal); [lia|reflexivity].
Qed.

Lemma ParseUint_decimal s bitSize :
  s <> "" -> allDigits s = true -> (0 < bitSize <= 64)%Z ->
  Strconv.ParseUint s bitSize =
    if (decimalValue s <? 2 ^ bitSize)%Z then (decimalValue s, None)
    else ((2 ^ bitSize - 1)%Z, Some (Strconv.rangeError "ParseUint" s)).
Proof.
  intros Hne Hdigits Hbits. unfold Strconv.ParseUint, decimalValue.
  destruct (String.eqb s "") eqn:Heq; [apply String.eqb_eq in Heq; contradiction|].
  destruct (bitSize =? 0)%Z eqn:Hz; [apply Z.eqb_eq in Hz; lia|].
  assert (Hpow : (0 < 2 ^ bitSize <= 2 ^ 64)%Z).
  { split; [apply Z.pow_pos_nonneg; lia | apply Z.pow_le_mono_r; lia]. }
  rewrite parseDigits_decimal;
    [|exact Hdigits|lia|unfold Strconv.maxUint64; lia].
  destruct (Z.leb_spec (decimalFrom s 0) (2 ^ bitSize - 1));
    destruct (Z.ltb_spec (decimalFrom s 0) (2 ^ bitSize)); try lia; reflexivity.
Qed.

(** X4.  An unsigned integer field bound from a string of decimal digits
    holds the number the digits denote when it fits the width of the field;
    otherwise the field is left alone and the error wraps the range error
    of [strconv.ParseUint]. *)
Theorem convert_uint_decimal E k field value :
  value <> "" ->
  allDigits value = true ->
  convert E (TUint k) field value =
    if (decimalValue value <? 2 ^ Bits (TUint k))%Z
    then (VUint (decimalValue value), None)
    else (field, Some (Wrap (MsgParseValue (Kind (TUint k)))
                         (Strconv.rangeError "ParseUint" value))).
Proof.
  intros Hne Hdigits. cbn [convert].
  destruct (String.eqb value "") eqn:Heq; [apply String.eqb_eq in Heq; contradiction|].
  rewrite ParseUint_decimal;
    [|exact Hne|exact Hdigits|destruct k; cbn; unfold IntSize; lia].
  destruct (decimalValue value <? 2 ^ Bits (TUint k))%Z; reflexivity.
Qed.

Lemma convert_uint_decimal_witness :
  convert sampleEnv (TUint KUint8) (VUint 7) "255" = (VUint 255, None)
  /\ convert sampleEnv (TUint KUint8) (VUint 7) "256" =
       (VUint 7, Some (Wrap (MsgParseValue Reflect.Uint8)
                         (Strconv.rangeError "ParseUint" "256"))).
Proof.
  split.
  - apply (convert_uint_decimal sampleEnv KUint8 (VUint 7) "255");
      [discriminate | reflexivity].
  - apply (convert_uint_decimal sampleEnv KUint8 (VUint 7) "256");
      [discriminate | reflexivity].
Defined.

Lemma digit_is_no_sign c :
  isDigit c = true -> Ascii.eqb c "+" = false /\ Ascii.eqb c "-" = false.
Proof.
  intros Hc. split.
  - destruct (Ascii.eqb_spec c "+") as [->|]; [discriminate Hc|reflexivity].
  - destruct (Ascii.eqb_spec c "-") as [->|]; [discriminate Hc|reflexivity].
Qed.

(** What [ParseInt] makes of the magnitude [ParseUint] read, for a string of
    decimal digits after the sign. *)
Lemma ParseInt_magnitude digits bitSize :
  digits <> "" -> allDigits digits = true -> (1 < bitSize <= 64)%Z ->
  exists un err,
    Strconv.ParseUint digits bitSize = (un, err)
    /\ Strconv.otherThanRange err = None
    /\ (2 ^ (bitSize - 1) <=? un)%Z = (2 ^ (bitSize - 1) <=? decimalValue digits)%Z
    /\ (2 ^ (bitSize - 1) <? un)%Z = (2 ^ (bitSize - 1) <? decimalValue digits)%Z
    /\ ((decimalValue digits <= 2 ^ (bitSize - 1))%Z -> un = decimalValue digits).
Proof.
  intros Hne Hdigits Hbits.
  rewrite ParseUint_decimal by (try assumption; lia).
  assert (Hpow : (2 ^ bitSize = 2 * 2 ^ (bitSize - 1))%Z).
  { rewrite <- Z.pow_succ_r by lia. f_equal. lia. }
  assert (Hhalf : (2 <= 2 ^ (bitSize - 1))%Z).
  { change 2%Z with (2 ^ 1)%Z at 1. apply Z.pow_le_mono_r; lia. }
  destruct (Z.ltb_spec (decimalValue digits) (2 ^ bitSize)) as [Hfit|Hover].
  - exists (decimalValue digits), None. repeat split; reflexivity.
  - exists (2 ^ bitSize - 1)%Z, (Some (Strconv.rangeError "ParseUint" digits)).
    split; [reflexivity|]. split; [reflexivity|].
    split; [|split].
    + destruct (Z.leb_spec (2 ^ (bitSize - 1)) (2 ^ bitSize - 1));
        destruct (Z.leb_spec (2 ^ (bitSize - 1)) (decimalValue digits));
        try lia; reflexivity.
    + destruct (Z.ltb_spec (2 ^ (bitSize - 1)) (2 ^ bitSize - 1));
        destruct (Z.ltb_spec (2 ^ (bitSize - 1)) (decimalValue digits));
        try lia; reflexivity.
    + lia.
Qed.

Lemma ParseInt_decimal digits bitSize :
  digits <> "" -> allDigits digits = true -> (1 < bitSize <= 64)%Z ->
  Strconv.ParseInt digits bitSize =
    if (decimalValue digits <? 2 ^ (bitSize - 1))%Z
    then (decimalValue digits, None)
    else ((2 ^ (bitSize - 1) - 1)%Z, Some (Strconv.rangeError "ParseInt" digits)).
Proof.
  intros Hne Hdigits Hbits.
  destruct (ParseInt_magnitude digits bitSize Hne Hdigits Hbits)
    as (un & err & Hun & Herr & Hle & Hlt & Hsame).
  destruct digits as [|c rest]; [contradiction|].
  unfold Strconv.ParseInt.
  assert (Hc : isDigit c = true)
    by (cbn [allDigits] in Hdigits; apply andb_prop in Hdigits as [Hc _]; exact Hc).
  destruct (digit_is_no_sign c Hc) as [-> ->].
  rewrite Hun, Herr.
  destruct (bitSize =? 0)%Z eqn:Hz; [apply Z.eqb_eq in Hz; lia|].
  cbn [negb andb]. rewrite Hle.
  destruct (Z.leb_spec (2 ^ (bitSize - 1)) (decimalValue (String c rest)));
    destruct (Z.ltb_spec (decimalValue (String c rest)) (2 ^ (bitSize - 1)));
    try lia; [reflexivity|].
  rewrite Hsame by lia. reflexivity.
Qed.

Lemma ParseInt_decimal_negative digits bitSize :
  digits <> "" -> allDigits digits = true -> (1 < bitSize <= 64)%Z ->
  Strconv.ParseInt (String "-" digits) bitSize =
    if (decimalValue digits <=? 2 ^ (bitSize - 1))%Z
    then ((- decimalValue digits)%Z, None)
    else ((- 2 ^ (bitSize - 1))%Z,
          Some (Strconv.rangeError "ParseInt" (String "-" digits))).
Proof.
  intros Hne Hdigits Hbits.
  destruct (ParseInt_magnitude digits bitSize Hne Hdigits Hbits)
    as (un & err & Hun & Herr & Hle & Hlt & Hsame).
  unfold Strconv.ParseInt.
  change (Ascii.eqb "-" "+") with false. change (Ascii.eqb "-" "-") with true.
  cbv iota. rewrite Hun, Herr.
  destruct (bitSize =? 0)%Z eqn:Hz; [apply Z.eqb_eq in Hz; lia|].
  cbn [negb andb]. rewrite Hlt.
  destruct (Z.ltb_spec (2 ^ (bitSize - 1)) (decimalValue digits));
    destruct (Z.leb_spec (decimalValue digits) (2 ^ (bitSize - 1)));
    try lia; [reflexivity|].
  rewrite Hsame by lia. reflexivity.
Qed.

Lemma Bits_int_width k : (1 < Bits (TInt k) <= 64)%Z.
Proof. destruct k; cbn; unfold IntSize; lia. Qed.

(** X5.  A signed integer field bound from decimal digits, with or without
    a minus sign, holds the number they denote when it lies within the
    width of the field, down to the lowest value; otherwise the field is
    left alone and the error wraps the range error of [strconv.ParseInt]. *)
Theorem convert_int_decimal E k field digits :
  digits <> "" ->
  allDigits digits = true ->
  convert E (TInt k) field digits =
    (if (decimalValue digits <? 2 ^ (Bits (TInt k) - 1))%Z
     then (VInt (decimalValue digits), None)
     else (field, Some (Wrap (MsgParseValue (Kind (TInt k)))
                          (Strconv.rangeError "ParseInt" digits))))
  /\ convert E (TInt k) field (String "-" digits) =
     (if (decimalValue digits <=? 2 ^ (Bits (TInt k) - 1))%Z
      then (VInt (- decimalValue digits), None)
      else (field, Some (Wrap (MsgParseValue (Kind (TInt k)))
                           (Strconv.rangeError "ParseInt" (String "-" digits))))).
Proof.
  intros Hne Hdigits. split; cbn [convert].
  - destruct (String.eqb digits "") eqn:Heq;
      [apply String.eqb_eq in Heq; contradiction|].
    rewrite ParseInt_decimal by (try assumption; apply Bits_int_width).
    destruct (decimalValue digits <? 2 ^ (Bits (TInt k) - 1))%Z; reflexivity.
  - change (String.eqb (String "-" digits) "") with false. cbv iota.
    rewrite ParseInt_decimal_negative by (try assumption; apply Bits_int_width).
    destruct (decimalValue digits <=? 2 ^ (Bits (TInt k) - 1))%Z; reflexivity.
Qed.

Lemma convert_int_decimal_witness :
  convert sampleEnv (TInt KInt8) (VInt 5) "128" =
    (VInt 5, Some (Wrap (MsgParseValue Reflect.Int8)
                     (Strconv.rangeError "ParseInt" "128")))
  /\ convert sampleEnv (TInt KInt8) (VInt 5) "-128" = (VInt (-128), None).
Proof.
  apply (convert_int_decimal sampleEnv KInt8 (VInt 5) "128");
    [discriminate | reflexivity].
Defined.

(** ** [convert]: slices of strings *)

Lemma Split_not_nil s sep : GoStrings.Split s sep <> [].
Proof.
  intros H. pose proof (Split_length s sep) as Hlen. rewrite H in Hlen.
  discriminate.
Qed.

(** Joining what [Split] cut gives the string back. *)
Lemma Join_Split s sep : Join (GoStrings.Split s sep) sep = s.
Proof.
  induction s as [|c rest IH]; [reflexivity|].
  cbn [GoStrings.Split].
  pose proof (Split_not_nil rest sep) as Hne.
  destruct (Ascii.eqb_spec c sep) as [->|Hc].
  - destruct (GoStrings.Split rest sep) as [|part parts]; [contradiction|].
    change (Join (EmptyString :: part :: parts) sep)
      with (String sep (Join (part :: parts) sep)).
    rewrite IH. reflexivity.
  - destruct (GoStrings.Split rest sep) as [|part parts]; [contradiction|].
    destruct parts as [|part' parts].
    + change (String c part = String c rest). cbn [Join] in IH.
      rewrite IH. reflexivity.
    + change (String c (String.append part
                          (String sep (Join (part' :: parts) sep)))
              = String c rest).
      change (String.append part (String sep (Join (part' :: parts) sep)) = rest)
        in IH.
      rewrite IH. reflexivity.
Qed.

Lemma convert_string E field value :
  convert E TString field value =
    if String.eqb value "" then (field, None) else (VString value, None).
Proof. reflexivity. Qed.

(** X6.  A [[]string] field bound from a non-empty string never fails: it
    holds the comma-separated parts, empty ones included, in order, and
    joining them with commas gives the raw string back. *)
Theorem convert_string_slice E field value :
  value <> "" ->
  convert E (TSlice TString) field value =
    (VSlice (Some (VString <$> GoStrings.Split value ",")), None)
  /\ Join (GoStrings.Split value ",") "," = value.
Proof.
  intros Hne. split; [|apply Join_Split].
  rewrite convert_slice_ok; [| exact Hne | discriminate |].
  - do 3 f_equal. apply list_fmap_ext. intros k part _.
    rewrite convert_string. destruct (String.eqb_spec part "") as [->|];
      reflexivity.
  - intros part _. rewrite convert_string. destruct (String.eqb part "");
      reflexivity.
Qed.

Lemma convert_string_slice_witness :
  convert sampleEnv (TSlice TString) (VSlice None) "a,,b" =
    (VSlice (Some (VString <$> GoStrings.Split "a,,b" ",")), None)
  /\ Join (GoStrings.Split "a,,b" ",") "," = "a,,b".
Proof.
  apply (convert_string_slice sampleEnv (VSlice None) "a,,b"). discriminate.
Defined.

(** ** The two variants of [convert] *)

Lemma convertElements_ext conv1 conv2 z parts : forall i slice,
  (forall part, conv1 z part = conv2 z part) ->
  (forall k, i <= k -> k < i + length parts -> slice !! k = Some z) ->
  convertElements conv1 i parts slice = convertElements conv2 i parts slice.
Proof.
  induction parts as [|part parts IH]; intros i slice Hext Hzero;
    cbn [convertElements]; [reflexivity|].
  cbn [length] in Hzero.
  assert (Hi : slice !! i = Some z) by (apply Hzero; lia).
  rewrite (list_lookup_total_correct _ _ _ Hi), Hext.
  destruct (conv2 z part) as [e [err|]]; [reflexivity|].
  apply IH; [exact Hext|].
  intros k Hk1 Hk2. rewrite list_lookup_insert_ne by lia. apply Hzero; lia.
Qed.

Lemma earlier_convert_zero E fieldType :
  (forall field value, value <> "" ->
     Earlier.convert E fieldType field value = convert E fieldType field value) ->
  forall value,
    Earlier.convert E fieldType (zero fieldType) value =
    convert E fieldType (zero fieldType) value.
Proof.
  intros Hfirst value. destruct (String.eqb_spec value "") as [->|Hne].
  - rewrite earlier_convert_empty, convert_empty. reflexivity.
  - apply Hfirst. exact Hne.
Qed.

Lemma earlier_convert_nonempty E fieldType : forall field value,
  value <> "" ->
  Earlier.convert E fieldType field value = convert E fieldType field value.
Proof.
  induction fieldType as [ |k|k|k|k| |element IH|element IHp| |k name];
    intros field value Hne; cbn [Earlier.convert convert];
    destruct (String.eqb_spec value "") as [?|_]; try contradiction;
    try reflexivity.
  destruct (decide (Kind element = Reflect.Slice)); [reflexivity|].
  cbv zeta.
  rewrite (convertElements_ext (Earlier.convert E element) (convert E element)
             (zero element)); [reflexivity|apply earlier_convert_zero, IH|].
  intros k _ Hk. apply MakeSlice_lookup. exact Hk.
Qed.

(** X7.  The two variants of [convert] differ on the empty string only:
    the earlier one resets the field there, the current one leaves it.  On
    every non-empty string they return the same field and the same error,
    and on a field that the loop has just reset they agree on every
    string. *)
Theorem convert_variants_agree E fieldType field value :
  value <> "" ->
  Earlier.convert E fieldType field value = convert E fieldType field value
  /\ (forall raw,
       Earlier.convert E fieldType (zero fieldType) raw =
       convert E fieldType (zero fieldType) raw).
Proof.
  intros Hne. split; [apply earlier_convert_nonempty; exact Hne|].
  apply earlier_convert_zero. apply earlier_convert_nonempty.
Qed.

Lemma convert_variants_agree_witness :
  Earlier.convert sampleEnv (TSlice (TInt KInt)) (VSlice None) "1,,x" =
    convert sampleEnv (TSlice (TInt KInt)) (VSlice None) "1,,x"
  /\ (forall raw,
       Earlier.convert sampleEnv (TSlice (TInt KInt)) (zero (TSlice (TInt KInt))) raw =
       convert sampleEnv (TSlice (TInt KInt)) (zero (TSlice (TInt KInt))) raw).
Proof.
  apply (convert_variants_agree sampleEnv (TSlice (TInt KInt)) (VSlice None) "1,,x").
  discriminate.
Defined.

(** ** The loop: what it leaves alone *)

Lemma fieldStep_unexported E request field i s v :
  IsExported field = false ->
  fieldStep E request field i s v = (Continue, s, v).
Proof. intros Hexp. unfold fieldStep. rewrite Hexp. reflexivity. Qed.

(** Whatever way the loop ends, it has changed nothing but the fields it
    went through, and of those the exported ones only. *)
Lemma fieldsLoop_frame E request fields : forall i s v,
  length (snd (fieldsLoop E request fields i s v)) = length v
  /\ forall j,
       (j < i \/ i + length fields <= j
        \/ exists field, fields !! (j - i) = Some field /\ IsExported field = false) ->
       snd (fieldsLoop E request fields i s v) !! j = v !! j.
Proof.
  induction fields as [|field fields IH]; intros i s v; cbn [fieldsLoop].
  - split; reflexivity.
  - pose proof (fieldStep_frame E request field i s v) as [Hlen Hother].
    pose proof (fieldStep_unexported E request field i s v) as Hunexp.
    destruct (fieldStep E request field i s v) as [[[|err] s'] v'] eqn:Hstep;
      cbn [snd] in *.
    + destruct (IH (S i) s' v') as [Hlen' Hother']. split; [congruence|].
      intros j Hj. destruct (decide (j = i)) as [Heq|Hne]; [subst j|].
      * destruct Hj as [Hj|[Hj|(f & Hf & Hexp)]]; [lia|cbn [length] in Hj; lia|].
        rewrite Nat.sub_diag in Hf. injection Hf as <-.
        specialize (Hunexp Hexp). injection Hunexp as _ <-.
        apply Hother'. lia.
      * rewrite Hother'; [rewrite Hother by exact Hne; reflexivity|].
        destruct Hj as [Hj|[Hj|(f & Hf & Hexp)]];
          [left; lia | right; left; cbn [length] in Hj; lia |].
        destruct (decide (j < i)); [left; lia|].
        right. right. exists f. split; [|exact Hexp].
        replace (j - i) with (S (j - S i)) in Hf by lia. exact Hf.
    + split; [exact Hlen|]. intros j Hj.
      destruct (decide (j = i)) as [Heq|Hne]; [subst j|apply Hother; exact Hne].
      destruct Hj as [Hj|[Hj|(f & Hf & Hexp)]]; [lia|cbn [length] in Hj; lia|].
      rewrite Nat.sub_diag in Hf. injection Hf as <-.
      specialize (Hunexp Hexp). discriminate Hunexp.
Qed.

(** X8.  Unexported fields are never written, and the destination keeps
    its size: however the loop of [Convert] ends, an unexported field holds
    what it held before, whatever its tags. *)
Theorem fieldsLoop_skips_unexported E request fields s v k field :
  fields !! k = Some field ->
  IsExported field = false ->
  length (snd (fieldsLoop E request fields 0 s v)) = length v
  /\ snd (fieldsLoop E request fields 0 s v) !! k = v !! k.
Proof.
  intros Hk Hexp. destruct (fieldsLoop_frame E request fields 0 s v) as [Hlen Hother].
  split; [exact Hlen|]. apply Hother. right. right. exists field.
  rewrite Nat.sub_0_r. split; assumption.
Qed.

Lemma fieldsLoop_skips_unexported_witness :
  length (snd (fieldsLoop sampleEnv (sampleRequest 0 [("X-Secret", "new")])
                 [pageField; secretField] 0 (sampleStreams [])
                 [VInt 5; VString "old"])) = length [VInt 5; VString "old"]
  /\ snd (fieldsLoop sampleEnv (sampleRequest 0 [("X-Secret", "new")])
            [pageField; secretField] 0 (sampleStreams [])
            [VInt 5; VString "old"]) !! 1 = [VInt 5; VString "old"] !! 1.
Proof.
  apply (fieldsLoop_skips_unexported sampleEnv (sampleRequest 0 [("X-Secret", "new")])
           [pageField; secretField] (sampleStreams []) [VInt 5; VString "old"]
           1 secretField); reflexivity.
Defined.

(** X9.  The first [return] ends the bind: when the loop is past the
    fields before [field] and the pass for [field] returns, with an error
    or without, that is what the loop returns, and no field after it has
    been reset or bound. *)
Theorem fieldsLoop_stops_at_first_return E request pre field rest i s v s1 v1 err s2 v2 :
  fieldsReach E request pre i s v = Some (s1, v1) ->
  fieldStep E request field (i + length pre) s1 v1 = (Return err, s2, v2) ->
  fieldsLoop E request (pre ++ field :: rest) i s v = (err, s2, v2)
  /\ (forall j, i + length pre < j -> v2 !! j = v !! j).
Proof.
  intros Hreach Hstep. split.
  - rewrite (fieldsLoop_app _ _ _ _ _ _ _ _ _ Hreach). cbn [fieldsLoop].
    rewrite Hstep. reflexivity.
  - intros j Hj.
    pose proof (fieldStep_frame E request field (i + length pre) s1 v1) as [_ Hother].
    rewrite Hstep in Hother. cbn [snd] in Hother.
    rewrite Hother by lia.
    apply fieldsReach_frame in Hreach as [_ Hpre]. apply Hpre. lia.
Qed.

Lemma fieldsLoop_stops_at_first_return_witness :
  fieldsLoop sampleEnv (sampleRequest 0 [("X-Page", "x")])
    ([countField] ++ pageField :: [idsField]) 0 (sampleStreams [])
    [VInt 7; VInt 5; VSlice (Some [VInt 1])]
  = (Some (Wrap (MsgConvertHeader "X-Page" "Page")
             (Wrap (MsgParseValue Reflect.Int)
                (NumError "ParseInt" "x" ErrSyntax))),
     sampleStreams [], [VInt 0; VInt 0; VSlice (Some [VInt 1])])
  /\ (forall j, 0 + length [countField] < j ->
        [VInt 0; VInt 0; VSlice (Some [VInt 1])] !! j
        = [VInt 7; VInt 5; VSlice (Some [VInt 1])] !! j).
Proof.
  apply (fieldsLoop_stops_at_first_return sampleEnv
           (sampleRequest 0 [("X-Page", "x")]) [countField] pageField [idsField]
           0 (sampleStreams []) [VInt 7; VInt 5; VSlice (Some [VInt 1])]
           (sampleStreams []) [VInt 0; VInt 5; VSlice (Some [VInt 1])]);
    reflexivity.
Defined.

(** ** Headers, query and path: no stream is touched *)

Lemma convertField_streams E field i msg value s v :
  snd (fst (convertField E field i msg value s v)) = s.
Proof. unfold convertField. repeat case_match; reflexivity. Qed.

Lemma fieldStep_reads_no_stream E request field i s v :
  readsNoStream field = true ->
  snd (fst (fieldStep E request field i s v)) = s.
Proof.
  intros Hpure. destruct (IsExported field) eqn:Hexp;
    [|rewrite fieldStep_unexported by exact Hexp; reflexivity].
  rewrite fieldStep_selected by exact Hexp. unfold readsNoStream in Hpure.
  destruct (selected field) as [[src tag]|]; [|reflexivity].
  destruct src; try discriminate; cbn [bindFrom]; apply convertField_streams.
Qed.

Lemma fieldsLoop_reads_no_stream E request fields : forall i s v,
  forallb readsNoStream fields = true ->
  snd (fst (fieldsLoop E request fields i s v)) = s.
Proof.
  induction fields as [|field fields IH]; intros i s v Hpure;
    cbn [fieldsLoop]; [reflexivity|].
  cbn [forallb] in Hpure. apply andb_prop in Hpure as [Hfield Hrest].
  pose proof (fieldStep_reads_no_stream E request field i s v Hfield) as Hstep.
  destruct (fieldStep E request field i s v) as [[[|err] s'] v'];
    cbn [fst snd] in Hstep; subst s'; [apply IH; exact Hrest|reflexivity].
Qed.

(** X10.  A bind that needs neither the JSON pass nor a form or file field
    leaves the request's streams alone: when the condition of the JSON pass
    does not hold and every field is bound from a header, the query, the
    path or from nothing, [Convert] parses no form and reads no byte of the
    body, however it ends. *)
Theorem Convert_leaves_streams E request destinationType s v :
  bodyCondition request destinationType = false ->
  forallb readsNoStream destinationType = true ->
  snd (fst (Convert E (Some request) s (DestStruct destinationType v))) = s.
Proof.
  intros Hbody Hpure. cbn [Convert]. rewrite convertBody_spec, Hbody.
  pose proof (fieldsLoop_reads_no_stream E request destinationType 0 s v Hpure)
    as Hloop.
  destruct (fieldsLoop E request destinationType 0 s v) as [[err s'] v'].
  exact Hloop.
Qed.

Lemma Convert_leaves_streams_witness :
  snd (fst (Convert sampleEnv (Some (sampleRequest 2 [("X-Page", "3")]))
              (sampleStreams emptyObject)
              (DestStruct [pageField; idsField; countField]
                 [VInt 5; VSlice None; VInt 7])))
  = sampleStreams emptyObject.
Proof.
  apply (Convert_leaves_streams sampleEnv (sampleRequest 2 [("X-Page", "3")])
           [pageField; idsField; countField] (sampleStreams emptyObject)
           [VInt 5; VSlice None; VInt 7]); reflexivity.
Defined.

(** ** A completed bind *)

Lemma fieldsReach_all E request fields i s v s1 v1 :
  fieldsReach E request fields i s v = Some (s1, v1) ->
  fieldsLoop E request fields i s v = (None, s1, v1).
Proof.
  intros Hreach.
  rewrite <- (app_nil_r fields), (fieldsLoop_app _ _ _ _ _ _ _ _ _ Hreach).
  reflexivity.
Qed.

(** The pass for a field bound from a header, the query or the path: the
    field becomes what [convert] makes of the raw string, from the zero
    value. *)
Lemma fieldStep_raw E request field i s v src tag :
  IsExported field = true ->
  selected field = Some (src, tag) ->
  src = SHeader \/ src = SQuery \/ src = SPath ->
  i < length v ->
  exists flow,
    fieldStep E request field i s v =
      (flow, s,
       <[i := fst (convert E (Type_ field) (zero (Type_ field))
                     (rawValue request src tag))]> v)
    /\ (flow = Continue ->
        snd (convert E (Type_ field) (zero (Type_ field))
               (rawValue request src tag)) = None).
Proof.
  intros Hexp Hsel Hsrc Hlt. rewrite fieldStep_selected, Hsel by exact Hexp.
  assert (Hget : <[i := zero (Type_ field)]> v !!! i = zero (Type_ field)).
  { apply list_lookup_total_correct, list_lookup_insert_eq. exact Hlt. }
  destruct Hsrc as [-> | [-> | ->]];
    cbn [bindFrom rawValue]; unfold bindHeader, bindQuery, bindPath, convertField;
    rewrite Hget;
    destruct (convert E (Type_ field) (zero (Type_ field)) _) as [x [err|]];
    cbn [fst snd]; rewrite list_insert_insert_eq;
    eexists; (split; [reflexivity|]); intros Hflow; try discriminate Hflow;
    reflexivity.
Qed.

(** X11.  After a loop that got past every field, each exported field bound
    from a header, the query or the path holds the conversion of its own raw
    string, started from the zero value, and that conversion did not fail:
    neither the value the caller passed in nor the other fields play a
    part. *)
Theorem fieldsReach_bound_value E request fields s v s1 v1 k field src tag :
  fieldsReach E request fields 0 s v = Some (s1, v1) ->
  fields !! k = Some field ->
  IsExported field = true ->
  selected field = Some (src, tag) ->
  src = SHeader \/ src = SQuery \/ src = SPath ->
  k < length v ->
  convert E (Type_ field) (zero (Type_ field)) (rawValue request src tag)
  = (v1 !!! k, None).
Proof.
  intros Hreach Hk Hexp Hsel Hsrc Hlt.
  assert (Hgen : forall fields i s v k,
            fieldsReach E request fields i s v = Some (s1, v1) ->
            fields !! k = Some field -> i + k < length v ->
            convert E (Type_ field) (zero (Type_ field)) (rawValue request src tag)
            = (v1 !!! (i + k), None)).
  { clear fields s v k Hreach Hk Hlt.
    induction fields as [|f fields IH]; intros i s v k Hreach Hk Hlt;
      [discriminate|].
    cbn [fieldsReach] in Hreach. destruct k as [|k].
    - injection Hk as ->. rewrite Nat.add_0_r in *.
      destruct (fieldStep_raw E request field i s v src tag Hexp Hsel Hsrc Hlt)
        as (flow & Hstep & Hok).
      rewrite Hstep in Hreach. destruct flow; [|discriminate].
      specialize (Hok eq_refl).
      apply fieldsReach_frame in Hreach as [_ Hother].
      assert (Hv1 : v1 !! i =
                Some (fst (convert E (Type_ field) (zero (Type_ field))
                             (rawValue request src tag)))).
      { rewrite Hother by lia. apply list_lookup_insert_eq. exact Hlt. }
      rewrite (list_lookup_total_correct _ _ _ Hv1).
      destruct (convert E (Type_ field) (zero (Type_ field))
                  (rawValue request src tag)) as [x err].
      cbn [fst snd] in *. subst err. reflexivity.
    - cbn in Hk.
      pose proof (fieldStep_frame E request f i s v) as [Hlen _].
      destruct (fieldStep E request f i s v) as [[[|err] s2] v2];
        [|discriminate].
      cbn [snd] in Hlen. replace (i + S k) with (S i + k) by lia.
      eapply IH; [exact Hreach|exact Hk|lia]. }
  apply (Hgen fields 0 s v k Hreach Hk). exact Hlt.
Qed.

Lemma fieldsReach_bound_value_witness :
  convert sampleEnv (Type_ pageField) (zero (Type_ pageField))
    (rawValue (sampleRequest 0 [("X-Page", "3")]) SHeader "X-Page")
  = ([VInt 0; VInt 3] !!! 1, None).
Proof.
  apply (fieldsReach_bound_value sampleEnv (sampleRequest 0 [("X-Page", "3")])
           [countField; pageField] (sampleStreams []) [VInt 7; VInt 5]
           (sampleStreams []) [VInt 0; VInt 3] 1 pageField SHeader "X-Page");
    first [reflexivity | left; reflexivity | cbn; lia].
Defined.

(** ** The JSON pass and the reset *)

(** X12.  The reset of the loop overwrites what the JSON pass decoded: when
    the pass succeeded and the loop got past every field, an exported field
    with no form, file, header, query or path tag (a field bound from the
    body alone) holds the zero value of its type, whatever the decoder had
    stored in it. *)
Theorem Convert_resets_decoded_field E request destinationType s v s0 v0 s1 v1 k field :
  convertBody E request destinationType s v = (None, s0, v0) ->
  fieldsReach E request destinationType 0 s0 v0 = Some (s1, v1) ->
  destinationType !! k = Some field ->
  IsExported field = true ->
  selected field = None ->
  k < length v0 ->
  Convert E (Some request) s (DestStruct destinationType v) =
    (None, s1, DestStruct destinationType v1)
  /\ v1 !! k = Some (zero (Type_ field)).
Proof.
  intros Hbody Hreach Hk Hexp Hsel Hlt. split.
  - cbn [Convert]. rewrite Hbody, (fieldsReach_all _ _ _ _ _ _ _ _ Hreach).
    reflexivity.
  - apply (fieldsReach_untagged_zero E request destinationType 0 s0 v0 s1 v1 k field);
      assumption.
Qed.

Lemma Convert_resets_decoded_field_witness :
  Convert storingEnv
    (Some (sampleRequest 2 [("Content-Type", "application/json")]))
    (sampleStreams emptyObject) (DestStruct [nameField] [VString "old"])
  = (None, sampleStreams [], DestStruct [nameField] [VString ""])
  /\ [VString ""] !! 0 = Some (zero (Type_ nameField)).
Proof.
  apply (Convert_resets_decoded_field storingEnv
           (sampleRequest 2 [("Content-Type", "application/json")])
           [nameField] (sampleStreams emptyObject) [VString "old"]
           (sampleStreams []) [VString "a"] (sampleStreams []) [VString ""]
           0 nameField); first [reflexivity | cbn; lia].
Defined.

Lemma earlier_fieldsLoop_untagged E request fields : forall i s v,
  Forall (fun field => selected field = None
                       /\ present (Lookup (Tag field) "raw") = false) fields ->
  Earlier.fieldsLoop E request fields i s v = (None, s, v).
Proof.
  induction fields as [|field fields IH]; intros i s v Hall;
    cbn [Earlier.fieldsLoop]; [reflexivity|].
  apply Forall_cons in Hall as [[Hsel Hraw] Hrest].
  rewrite earlier_untagged_field_kept by assumption. apply IH. exact Hrest.
Qed.

(** X13.  The earlier variant keeps what the JSON pass decoded: when the
    pass succeeded and no field carries a form, file, raw, header, query or
    path tag, its [Convert] returns the destination as the decoder left
    it. *)
Theorem earlier_Convert_keeps_decoded E request destinationType s v s0 v0 :
  convertBody E request destinationType s v = (None, s0, v0) ->
  Forall (fun field => selected field = None
                       /\ present (Lookup (Tag field) "raw") = false)
         destinationType ->
  Earlier.Convert E (Some request) s (DestStruct destinationType v) =
    (None, s0, DestStruct destinationType v0).
Proof.
  intros Hbody Hall. cbn [Earlier.Convert]. rewrite Hbody.
  rewrite earlier_fieldsLoop_untagged by exact Hall. reflexivity.
Qed.

Lemma earlier_Convert_keeps_decoded_witness :
  Earlier.Convert storingEnv
    (Some (sampleRequest 2 [("Content-Type", "application/json")]))
    (sampleStreams emptyObject) (DestStruct [nameField] [VString "old"])
  = (None, sampleStreams [], DestStruct [nameField] [VString "a"]).
Proof.
  apply (earlier_Convert_keeps_decoded storingEnv
           (sampleRequest 2 [("Content-Type", "application/json")])
           [nameField] (sampleStreams emptyObject) [VString "old"]
           (sampleStreams []) [VString "a"]); [reflexivity|].
  repeat constructor.
Defined.

(** ** Files *)

Lemma setFile_fileValue field i f v :
  setFile field i f v = <[i := fileValue (Type_ field) f]> v.
Proof. unfold setFile, fileValue. case_match; reflexivity. Qed.

(** X14.  A [File] or [*File] field bound from a named file tag, in a
    multipart request that has the part: the field holds the part's declared
    file name and size and the whole of its content, behind a fresh pointer
    for [*File], and the loop goes on; if reading the part fails, [Convert]
    returns that error wrapped, with the field at its zero value. *)
Theorem Convert_stores_part E request field i s v tag file fileHeader s' :
  IsExported field = true ->
  selected field = Some (SFile, tag) ->
  tag <> "binary" ->
  isFileType (Type_ field) = true ->
  GoStrings.TrimSpace (mediaType request) = "multipart/form-data" ->
  FormFile E tag request s = (inr (file, fileHeader), s') ->
  fieldStep E request field i s v =
    match fault file with
    | None =>
        (Continue, s',
         <[i := fileValue (Type_ field)
                  (mkFile (Filename fileHeader) (FileSize fileHeader)
                     (Some (pending file)))]> v)
    | Some err =>
        (Return (Some (Wrap (MsgReadFormFile tag (FieldName field)) err)), s',
         <[i := zero (Type_ field)]> v)
    end.
Proof.
  intros Hexp Hsel Htag Htype Hmedia Hfile.
  rewrite fieldStep_selected, Hsel by exact Hexp. cbn [bindFrom].
  destruct (String.eqb_spec tag "binary") as [?|_]; [contradiction|].
  unfold bindFile. rewrite fileTypeError_spec, Htype.
  unfold mediaType in Hmedia.
  destruct (GoStrings.Cut (Header_Get request "Content-Type") ";")
    as [[base after] found].
  cbn [fst] in Hmedia. rewrite Hmedia.
  change (String.eqb "multipart/form-data" "multipart/form-data") with true.
  cbn [negb]. rewrite Hfile. unfold ReadAll.
  destruct (fault file); [reflexivity|].
  rewrite setFile_fileValue, list_insert_insert_eq. reflexivity.
Qed.

Lemma Convert_stores_part_witness :
  fieldStep partEnv
    (sampleRequest 120 [("Content-Type", "multipart/form-data; boundary=x")])
    avatarField 0 (sampleStreams []) [VFilePtr None]
  = (Continue, sampleStreams [],
     [VFilePtr (Some (mkFile "b.txt" 2 (Some emptyObject)))]).
Proof.
  apply (Convert_stores_part partEnv
           (sampleRequest 120 [("Content-Type", "multipart/form-data; boundary=x")])
           avatarField 0 (sampleStreams []) [VFilePtr None] "avatar"
           (mkReader emptyObject None)
           (mkFileHeader "b.txt" 2 (mkReader emptyObject None))
           (sampleStreams []));
    first [reflexivity | discriminate].
Defined.

(** X15.  A [File] or [*File] field bound from [file:"binary"], on a request
    that declares a body.  Without a file name in [Content-Disposition] the
    field stays at its zero value, the body is not read and the loop goes
    on.  With one, the whole body is read: the field holds the name, the
    declared content length as size, and the bytes read; a read error ends
    [Convert].  Either way nothing of the body is left. *)
Theorem Convert_stores_body E request field i s v :
  IsExported field = true ->
  selected field = Some (SFile, "binary") ->
  isFileType (Type_ field) = true ->
  ContentLength request <> 0%Z ->
  fieldStep E request field i s v =
    match binaryFilename E request with
    | None => (Continue, s, <[i := zero (Type_ field)]> v)
    | Some filename =>
        match fault (Body s) with
        | None =>
            (Continue, set_Body s (mkReader [] None),
             <[i := fileValue (Type_ field)
                      (mkFile filename (ContentLength request)
                         (Some (pending (Body s))))]> v)
        | Some err =>
            (Return (Some (Wrap (MsgReadRawBody "binary" (FieldName field)) err)),
             set_Body s (mkReader [] (Some err)),
             <[i := zero (Type_ field)]> v)
        end
    end.
Proof.
  intros Hexp Hsel Htype Hlen.
  rewrite fieldStep_selected, Hsel by exact Hexp. cbn [bindFrom String.eqb].
  change (Ascii.eqb "b" "b") with true. cbv iota.
  change (String.eqb "binary" "binary") with true. cbv iota.
  unfold bindBinary, binaryFilename. rewrite fileTypeError_spec, Htype.
  destruct (Z.eqb_spec (ContentLength request) 0) as [?|_]; [contradiction|].
  cbv zeta.
  destruct (ParseMediaType E (Header_Get request "Content-Disposition"))
    as [[mediatype params] [err|]]; [reflexivity|].
  destruct (String.eqb
              (if String.eqb (default "" (params !! "filename")) ""
               then default "" (params !! "filename*")
               else default "" (params !! "filename")) ""); [reflexivity|].
  unfold ReadAll. destruct (fault (Body s)); [reflexivity|].
  rewrite setFile_fileValue, list_insert_insert_eq. reflexivity.
Qed.

Lemma Convert_stores_body_witness :
  fieldStep uploadEnv (sampleRequest 9 []) uploadField 0
    (sampleStreams emptyObject) [VFile (mkFile "old" 3 None)]
  = (Continue, sampleStreams [],
     [VFile (mkFile "a.bin" 9 (Some emptyObject))]).
Proof.
  apply (Convert_stores_body uploadEnv (sampleRequest 9 []) uploadField 0
           (sampleStreams emptyObject) [VFile (mkFile "old" 3 None)]);
    first [reflexivity | discriminate].
Defined.

(** ** [convert]: the types it rejects *)




(** ** [convert]: the size of a slice and its empty parts *)


